(** * The metadata API gateway (mas/api/api.go)

    A shallow embedding of the HTTP handler of the metadata API: the
    request as the handler reads it, the SQL statements it prepares with
    their [nullif] / cast / [string_to_array] argument expressions, the
    flag dispatch, the memcache read-through path and the error
    formatter, followed by the properties proved about them. *)

From Stdlib Require Import ZArith List Ascii String DecimalString.
From stdpp Require Import base option list strings gmap fin_maps.
Import ListNotations.

Local Open Scope string_scope.

(** ** Go strings

    A Go string is a sequence of bytes; [string] (a list of [ascii]) is
    used for it throughout, and for [[]byte] values as well. *)

Definition byte_of (c : ascii) : Z := Z.of_N (N_of_ascii c).
Definition ascii_of (b : Z) : ascii := ascii_of_N (Z.to_N (b mod 256)).

Definition bytes_of (s : string) : list Z := map byte_of (list_ascii_of_string s).
Definition string_of (bs : list Z) : string := string_of_list_ascii (map ascii_of bs).

(** ** net/url and net/http: what the handler reads from a request *)

(** [url.Values] is [map[string][]string]. *)
Abbreviation Values := (gmap string (list string)).

(** The request as the handler observes it: [request.URL.Path],
    [request.URL.RequestURI()], [request.URL.Query()] and the parsed form
    ([request.Form], which holds the body parameters ahead of the query
    string's). *)
Record Request := {
  URL_Path : string;
  URL_RequestURI : string;
  URL_Query : Values;
  Form : Values
}.

(** [_, ok := query[key]]. *)
Definition has_key (query : Values) (key : string) : bool :=
  match query !! key with
  | Some _ => true
  | None => false
  end.

(** [request.FormValue(key)]: the first value of [key], or the empty
    string when there is none. *)
Definition FormValue (request : Request) (key : string) : string :=
  match Form request !! key with
  | Some (v :: _) => v
  | _ => ""
  end.

(** ** The SQL expressions of the prepared statements *)

Module pg.

(** The types the statements cast to, and the type of
    [string_to_array]'s result. *)
Inductive type :=
| text | integer | timestamptz | float8 | float | int | jsonb | text_array.

(** An argument as the stored function receives it: SQL NULL of a type,
    the input text [repr] read as a value of a scalar type (the
    conversion itself is Postgres' and may raise), or an array of
    texts. *)
Inductive datum :=
| Null (ty : type)
| Val (ty : type) (repr : string)
| Arr (elems : list string).

(** [nullif(a, b)]: NULL when the two texts are equal, [a] otherwise. *)
Definition nullif (a b : string) : option string :=
  if String.eqb a b then None else Some a.

(** [e :: ty]. *)
Definition cast (e : option string) (ty : type) : datum :=
  match e with
  | None => Null ty
  | Some s => Val ty s
  end.

(** The fields of [s] between occurrences of the one-character
    delimiter [d]; a string without [d] is one field. *)
Fixpoint split (d : ascii) (s : string) : list string :=
  match s with
  | EmptyString => [EmptyString]
  | String c rest =>
      if Ascii.eqb c d then EmptyString :: split d rest
      else match split d rest with
           | field :: fields => String c field :: fields
           | [] => [String c EmptyString]
           end
  end.

(** [string_to_array(e, d)] for a one-character delimiter: NULL for a
    NULL input, the empty array for the empty string, the fields
    otherwise. *)
Definition string_to_array (e : option string) (d : ascii) : datum :=
  match e with
  | None => Null text_array
  | Some EmptyString => Arr []
  | Some s => Arr (split d s)
  end.

(** [select proc(actuals...) as json]. *)
Record call := { proc : string; actuals : list datum }.

End pg.

(** ** The operations of the handler

    Each branch of the handler prepares one statement; the statement with
    its placeholders bound to the Go arguments of [db.QueryRow] is the
    call the database evaluates. *)

Import pg.

(** The [nullif($n,'')::ty] argument. *)
Definition nullif_cast (raw : string) (ty : type) : datum :=
  cast (nullif raw "") ty.

(** The [string_to_array(nullif($n,''), ',')] argument. *)
Definition nullif_array (raw : string) : datum :=
  string_to_array (nullif raw "") ",".

Definition mas_intersects (request : Request) : call :=
  {| proc := "mas_intersects";
     actuals :=
       [ nullif_cast (URL_Path request) text;
         nullif_cast (FormValue request "srs") text;
         nullif_cast (FormValue request "wkt") text;
         nullif_cast (FormValue request "nseg") integer;
         nullif_cast (FormValue request "time") timestamptz;
         nullif_cast (FormValue request "until") timestamptz;
         nullif_array (FormValue request "namespace");
         nullif_cast (FormValue request "metadata") text;
         nullif_cast (FormValue request "identitytol") float8;
         nullif_cast (FormValue request "dptol") float;
         nullif_cast (FormValue request "limit") int ] |}.

Definition mas_timestamps (request : Request) : call :=
  {| proc := "mas_timestamps";
     actuals :=
       [ nullif_cast (URL_Path request) text;
         nullif_cast (FormValue request "time") timestamptz;
         nullif_cast (FormValue request "until") timestamptz;
         nullif_array (FormValue request "namespace");
         nullif_cast (FormValue request "token") text ] |}.

Definition mas_spatial_temporal_extents (request : Request) : call :=
  {| proc := "mas_spatial_temporal_extents";
     actuals :=
       [ nullif_cast (URL_Path request) text;
         nullif_array (FormValue request "namespace") ] |}.

Definition mas_list_root_gpath (request : Request) : call :=
  {| proc := "mas_list_root_gpath"; actuals := [] |}.

Definition mas_list_sub_gpath (request : Request) : call :=
  {| proc := "mas_list_sub_gpath";
     actuals := [ nullif_cast (URL_Path request) text ] |}.

Definition mas_generate_layers (request : Request) : call :=
  {| proc := "mas_generate_layers";
     actuals := [ nullif_cast (URL_Path request) text ] |}.

Definition mas_put_ows_cache (request : Request) : call :=
  {| proc := "mas_put_ows_cache";
     actuals :=
       [ nullif_cast (URL_Path request) text;
         nullif_cast (FormValue request "query") text;
         nullif_cast (FormValue request "value") jsonb ] |}.

Definition mas_get_ows_cache (request : Request) : call :=
  {| proc := "mas_get_ows_cache";
     actuals :=
       [ nullif_cast (URL_Path request) text;
         nullif_cast (FormValue request "query") text ] |}.

(** The chain of [if _, ok := query[flag]; ok] tests: the statement of
    the first flag that is a key of the query, [None] for the final
    [else]. *)
Definition dispatch (request : Request) : option call :=
  let query := URL_Query request in
  if has_key query "intersects" then Some (mas_intersects request)
  else if has_key query "timestamps" then Some (mas_timestamps request)
  else if has_key query "extents" then Some (mas_spatial_temporal_extents request)
  else if has_key query "list_root_gpath" then Some (mas_list_root_gpath request)
  else if has_key query "list_sub_gpath" then Some (mas_list_sub_gpath request)
  else if has_key query "generate_layers" then Some (mas_generate_layers request)
  else if has_key query "put_ows_cache" then Some (mas_put_ows_cache request)
  else if has_key query "get_ows_cache" then Some (mas_get_ows_cache request)
  else None.

(** The message of the final [else]. *)
Definition unknown_operation : string :=
  "unknown operation; currently supported: ?intersects, ?timestamps, ?extents".

(** ** crypto/md5 and encoding/hex: the request fingerprint *)

Module md5.
Local Open Scope Z_scope.

Definition shifts : list Z :=
  [ 7; 12; 17; 22; 7; 12; 17; 22; 7; 12; 17; 22; 7; 12; 17; 22;
    5; 9; 14; 20; 5; 9; 14; 20; 5; 9; 14; 20; 5; 9; 14; 20;
    4; 11; 16; 23; 4; 11; 16; 23; 4; 11; 16; 23; 4; 11; 16; 23;
    6; 10; 15; 21; 6; 10; 15; 21; 6; 10; 15; 21; 6; 10; 15; 21 ].

Definition sines : list Z :=
  [ 0xd76aa478; 0xe8c7b756; 0x242070db; 0xc1bdceee;
    0xf57c0faf; 0x4787c62a; 0xa8304613; 0xfd469501;
    0x698098d8; 0x8b44f7af; 0xffff5bb1; 0x895cd7be;
    0x6b901122; 0xfd987193; 0xa679438e; 0x49b40821;
    0xf61e2562; 0xc040b340; 0x265e5a51; 0xe9b6c7aa;
    0xd62f105d; 0x02441453; 0xd8a1e681; 0xe7d3fbc8;
    0x21e1cde6; 0xc33707d6; 0xf4d50d87; 0x455a14ed;
    0xa9e3e905; 0xfcefa3f8; 0x676f02d9; 0x8d2a4c8a;
    0xfffa3942; 0x8771f681; 0x6d9d6122; 0xfde5380c;
    0xa4beea44; 0x4bdecfa9; 0xf6bb4b60; 0xbebfbc70;
    0x289b7ec6; 0xeaa127fa; 0xd4ef3085; 0x04881d05;
    0xd9d4d039; 0xe6db99e5; 0x1fa27cf8; 0xc4ac5665;
    0xf4292244; 0x432aff97; 0xab9423a7; 0xfc93a039;
    0x655b59c3; 0x8f0ccc92; 0xffeff47d; 0x85845dd1;
    0x6fa87e4f; 0xfe2ce6e0; 0xa3014314; 0x4e0811a1;
    0xf7537e82; 0xbd3af235; 0x2ad7d2bb; 0xeb86d391 ].

(** 32-bit words are integers in [0, 2^32): additions wrap, a rotation
    keeps the low 32 bits. *)
Definition u32 (x : Z) : Z := x mod 2 ^ 32.
Definition not32 (x : Z) : Z := Z.lxor x 0xffffffff.
Definition rotl (x c : Z) : Z :=
  u32 (Z.lor (Z.shiftl x c) (Z.shiftr x (32 - c))).

Definition state : Type := Z * Z * Z * Z.

Definition init : state := (0x67452301, 0xefcdab89, 0x98badcfe, 0x10325476).

(** Step [i] of the 64 of a block, on the block's sixteen words [M]. *)
Definition step (M : list Z) (st : state) (isk : nat * (Z * Z)) : state :=
  let '(a, b, c, d) := st in
  let '(n, (s, k)) := isk in
  let i := Z.of_nat n in
  let '(f, g) :=
    if i <? 16 then (Z.lor (Z.land b c) (Z.land (not32 b) d), i)
    else if i <? 32 then (Z.lor (Z.land d b) (Z.land (not32 d) c), (5 * i + 1) mod 16)
    else if i <? 48 then (Z.lxor b (Z.lxor c d), (3 * i + 5) mod 16)
    else (Z.lxor c (Z.lor b (not32 d)), (7 * i) mod 16) in
  let f := u32 (f + a + k + nth (Z.to_nat g) M 0) in
  (d, u32 (b + rotl f s), b, c).

(** Little-endian 32-bit words of a byte sequence. *)
Fixpoint words (bs : list Z) : list Z :=
  match bs with
  | b0 :: b1 :: b2 :: b3 :: rest =>
      (b0 + 256 * b1 + 65536 * b2 + 16777216 * b3) :: words rest
  | _ => []
  end.

Definition block (st : state) (bs : list Z) : state :=
  let '(a0, b0, c0, d0) := st in
  let '(a, b, c, d) :=
    fold_left (step (words bs)) (combine (seq 0 64) (combine shifts sines)) st in
  (u32 (a0 + a), u32 (b0 + b), u32 (c0 + c), u32 (d0 + d)).

Fixpoint blocks (n : nat) (st : state) (bs : list Z) : state :=
  match n with
  | O => st
  | S n => blocks n (block st (firstn 64 bs)) (skipn 64 bs)
  end.

Definition le_bytes (n : nat) (x : Z) : list Z :=
  map (fun i => Z.shiftr x (8 * Z.of_nat i) mod 256) (seq 0 n).

(** The message, a 1 bit, zero bits up to 56 bytes modulo 64, and the
    bit length as 64 bits. *)
Definition pad (msg : list Z) : list Z :=
  let len := Z.of_nat (length msg) in
  msg ++ [0x80] ++ repeat 0 (Z.to_nat ((55 - len) mod 64))
      ++ le_bytes 8 ((8 * len) mod 2 ^ 64).

(** [md5.Sum(data)]: the sixteen bytes of the digest. *)
Definition Sum (data : string) : string :=
  let padded := pad (bytes_of data) in
  let '(a, b, c, d) := blocks (length padded / 64)%nat init padded in
  string_of (le_bytes 4 a ++ le_bytes 4 b ++ le_bytes 4 c ++ le_bytes 4 d).

End md5.

Module hex.

Definition hextable : string := "0123456789abcdef".

Definition digit (n : Z) : ascii :=
  match String.get (Z.to_nat n) hextable with
  | Some c => c
  | None => "0"%char
  end.

(** [hex.EncodeToString(src)]: two lower-case digits per byte. *)
Fixpoint EncodeToString (src : string) : string :=
  match src with
  | EmptyString => EmptyString
  | String c rest =>
      String (digit (Z.shiftr (byte_of c) 4))
        (String (digit (Z.land (byte_of c) 15)) (EncodeToString rest))
  end.

End hex.

(** The cache key of a request: the hex MD5 of its request URI. *)
Definition fingerprint (request : Request) : string :=
  hex.EncodeToString (md5.Sum (URL_RequestURI request)).

(** ** unicode/utf8 and strconv: the [%q] verb *)

(** The double quote and the backslash. *)
Definition dquote : ascii := "034"%char.
Definition backslash : ascii := "092"%char.
Definition dq : string := String dquote EmptyString.

Module utf8.
Local Open Scope Z_scope.

Definition RuneError : Z := 0xFFFD.
Definition RuneSelf : Z := 0x80.

Definition between (lo hi b : Z) : bool := (lo <=? b) && (b <=? hi).
Definition cont (b : Z) : Z := Z.land b 0x3F.

(** For a leading byte: the length of the encoding and the range the
    second byte must lie in; [None] for a byte that starts none. *)
Definition first (s0 : Z) : option (nat * (Z * Z)) :=
  if between 0xC2 0xDF s0 then Some (2%nat, (0x80, 0xBF))
  else if s0 =? 0xE0 then Some (3%nat, (0xA0, 0xBF))
  else if s0 =? 0xED then Some (3%nat, (0x80, 0x9F))
  else if between 0xE1 0xEF s0 then Some (3%nat, (0x80, 0xBF))
  else if s0 =? 0xF0 then Some (4%nat, (0x90, 0xBF))
  else if between 0xF1 0xF3 s0 then Some (4%nat, (0x80, 0xBF))
  else if s0 =? 0xF4 then Some (4%nat, (0x80, 0x8F))
  else None.

(** [utf8.DecodeRuneInString(s)] on the bytes of a non-empty [s]: the
    rune and its width, [(RuneError, 1)] for an encoding that is
    invalid or cut short. *)
Definition DecodeRune (bs : list Z) : Z * nat :=
  match bs with
  | [] => (RuneError, 0%nat)
  | s0 :: rest =>
      if s0 <? RuneSelf then (s0, 1%nat)
      else
        match first s0, rest with
        | Some (2%nat, (lo, hi)), s1 :: _ =>
            if between lo hi s1
            then (Z.lor (Z.shiftl (Z.land s0 0x1F) 6) (cont s1), 2%nat)
            else (RuneError, 1%nat)
        | Some (3%nat, (lo, hi)), s1 :: s2 :: _ =>
            if between lo hi s1 && between 0x80 0xBF s2
            then (Z.lor (Z.shiftl (Z.land s0 0x0F) 12)
                    (Z.lor (Z.shiftl (cont s1) 6) (cont s2)), 3%nat)
            else (RuneError, 1%nat)
        | Some (4%nat, (lo, hi)), s1 :: s2 :: s3 :: _ =>
            if between lo hi s1 && between 0x80 0xBF s2 && between 0x80 0xBF s3
            then (Z.lor (Z.shiftl (Z.land s0 0x07) 18)
                    (Z.lor (Z.shiftl (cont s1) 12)
                       (Z.lor (Z.shiftl (cont s2) 6) (cont s3))), 4%nat)
            else (RuneError, 1%nat)
        | _, _ => (RuneError, 1%nat)
        end
  end.

Definition ValidRune (r : Z) : bool :=
  between 0 0xD7FF r || between 0xE000 0x10FFFF r.

(** [utf8.AppendRune]: the encoding of [r], of [RuneError] for a rune
    that is not valid. *)
Definition EncodeRune (r : Z) : list Z :=
  let r := if ValidRune r then r else RuneError in
  if r <=? 0x7F then [r]
  else if r <=? 0x7FF then
    [Z.lor 0xC0 (Z.shiftr r 6); Z.lor 0x80 (cont r)]
  else if r <=? 0xFFFF then
    [Z.lor 0xE0 (Z.shiftr r 12); Z.lor 0x80 (cont (Z.shiftr r 6));
     Z.lor 0x80 (cont r)]
  else
    [Z.lor 0xF0 (Z.shiftr r 18); Z.lor 0x80 (cont (Z.shiftr r 12));
     Z.lor 0x80 (cont (Z.shiftr r 6)); Z.lor 0x80 (cont r)].

End utf8.

Module strconv.
Local Open Scope Z_scope.

Section Quote.

(** [strconv.IsPrint] decides runes above U+00FF from tables of the
    Unicode version Go was built with; they are a parameter here. *)
Variable isPrintTable : Z -> bool.

Definition IsPrint (r : Z) : bool :=
  if r <=? 0xFF then
    if utf8.between 0x20 0x7E r then true
    else if utf8.between 0xA1 0xFF r then negb (r =? 0xAD)
    else false
  else isPrintTable r.

Definition hexdigits (n : nat) (r : Z) : string :=
  string_of_list_ascii
    (map (fun i => hex.digit (Z.land (Z.shiftr r (4 * Z.of_nat i)) 0xF))
       (rev (seq 0 n))).

(** [appendEscapedRune] for the double quote, neither ASCII-only nor
    graphic-only. *)
Definition escapedRune (r : Z) : string :=
  if (r =? byte_of dquote) || (r =? byte_of backslash) then
    String backslash (String (ascii_of r) EmptyString)
  else if IsPrint r then string_of (utf8.EncodeRune r)
  else if r =? 7 then String backslash "a"
  else if r =? 8 then String backslash "b"
  else if r =? 12 then String backslash "f"
  else if r =? 10 then String backslash "n"
  else if r =? 13 then String backslash "r"
  else if r =? 9 then String backslash "t"
  else if r =? 11 then String backslash "v"
  else if (r <? 0x20) || (r =? 0x7F) then
    String backslash ("x" ++ hexdigits 2 r)
  else if negb (utf8.ValidRune r) then
    String backslash ("u" ++ hexdigits 4 utf8.RuneError)
  else if r <? 0x10000 then String backslash ("u" ++ hexdigits 4 r)
  else String backslash ("U" ++ hexdigits 8 r).

(** The loop of [appendQuotedWith]: at each position the rune there is
    decoded and escaped, and the bytes of its encoding are passed over
    ([skip] of them remain); a byte that decodes to no rune is written
    as [\x] and two digits. *)
Fixpoint quoted (skip : nat) (s : string) : string :=
  match s with
  | EmptyString => EmptyString
  | String c rest =>
      match skip with
      | S n => quoted n rest
      | O =>
          let '(r, width) := utf8.DecodeRune (bytes_of s) in
          if (width =? 1)%nat && (r =? utf8.RuneError) then
            String backslash ("x" ++ hexdigits 2 (byte_of c)) ++ quoted 0 rest
          else escapedRune r ++ quoted (width - 1) rest
      end
  end.

(** [strconv.Quote(s)]. *)
Definition Quote (s : string) : string := dq ++ quoted 0 s ++ dq.

End Quote.

End strconv.

(** ** net/http: the response writer *)

Definition newline : string := String "010"%char EmptyString.

Module http.
Local Open Scope Z_scope.

(** What has been sent through a [http.ResponseWriter]: the header map,
    the status code once the header is written, and the body so far. *)
Record ResponseWriter := {
  header : Values;
  status : option Z;
  body : string
}.

Definition NewResponse : ResponseWriter :=
  {| header := ∅; status := None; body := EmptyString |}.

(** [w.Header().Set(key, value)]. *)
Definition Header_Set (key value : string) (w : ResponseWriter) : ResponseWriter :=
  {| header := <[key := [value]]> (header w); status := status w; body := body w |}.

(** [w.WriteHeader(code)]: the first call fixes the status. *)
Definition WriteHeader (code : Z) (w : ResponseWriter) : ResponseWriter :=
  match status w with
  | Some _ => w
  | None => {| header := header w; status := Some code; body := body w |}
  end.

(** [w.Write(data)]: writes the header with 200 if it is not written
    yet, then the data. *)
Definition Write (data : string) (w : ResponseWriter) : ResponseWriter :=
  let w := WriteHeader 200 w in
  {| header := header w; status := status w; body := body w ++ data |}.

(** [http.Error(w, error, code)]: a plain-text reply of the message and
    a newline. *)
Definition Error (w : ResponseWriter) (error : string) (code : Z) : ResponseWriter :=
  let w := Header_Set "Content-Type" "text/plain; charset=utf-8" w in
  let w := Header_Set "X-Content-Type-Options" "nosniff" w in
  let w := WriteHeader code w in
  Write (error ++ newline) w.

(** The status the client sees: 200 for a handler that returns without
    writing the header. *)
Definition StatusCode (w : ResponseWriter) : Z := default 200 (status w).

End http.

(** ** JSON texts (RFC 8259), to read the error replies against *)

Module json.
Local Open Scope Z_scope.

Definition is_ws (c : ascii) : bool :=
  let b := byte_of c in (b =? 0x20) || (b =? 0x09) || (b =? 0x0A) || (b =? 0x0D).

Fixpoint skip_ws (s : string) : string :=
  match s with
  | String c rest => if is_ws c then skip_ws rest else s
  | EmptyString => s
  end.

Definition is_hex (c : ascii) : bool :=
  let b := byte_of c in
  utf8.between 0x30 0x39 b || utf8.between 0x41 0x46 b || utf8.between 0x61 0x66 b.

(** The escapes of a JSON string: a backslash and one of
    the double quote, the backslash, [/ b f n r t], or [u] and four
    hexadecimal digits. *)
Definition is_escape (c : ascii) : bool :=
  Ascii.eqb c dquote || Ascii.eqb c backslash ||
  existsb (Ascii.eqb c) (list_ascii_of_string "/bfnrt").

Inductive lexer := Plain | Escape | Hex (remaining : nat).

(** The characters of a string after its opening quote: what follows
    the closing quote, or [None] when the string is not well formed
    (an unescaped control character, an unknown escape, no closing
    quote). *)
Fixpoint string_tail (st : lexer) (s : string) : option string :=
  match s with
  | EmptyString => None
  | String c rest =>
      match st with
      | Plain =>
          if Ascii.eqb c dquote then Some rest
          else if Ascii.eqb c backslash then string_tail Escape rest
          else if byte_of c <? 0x20 then None
          else string_tail Plain rest
      | Escape =>
          if is_escape c then string_tail Plain rest
          else if Ascii.eqb c "u" then string_tail (Hex 3) rest
          else None
      | Hex n =>
          if is_hex c then
            string_tail (match n with O => Plain | S n => Hex n end) rest
          else None
      end
  end.

(** [expect p s]: [s] without its prefix [p]. *)
Fixpoint expect (p s : string) : option string :=
  match p, s with
  | EmptyString, _ => Some s
  | String a p, String b s => if Ascii.eqb a b then expect p s else None
  | _, EmptyString => None
  end.

(** Whether [s] is a JSON text that is an object with the single member
    [error], whose value is a string. *)
Definition error_object (s : string) : bool :=
  match expect "{" (skip_ws s) with
  | None => false
  | Some s =>
      match expect (dq ++ "error" ++ dq) (skip_ws s) with
      | None => false
      | Some s =>
          match expect ":" (skip_ws s) with
          | None => false
          | Some s =>
              match expect dq (skip_ws s) with
              | None => false
              | Some s =>
                  match string_tail Plain s with
                  | None => false
                  | Some s =>
                      match expect "}" (skip_ws s) with
                      | Some s => String.eqb (skip_ws s) EmptyString
                      | None => false
                      end
                  end
              end
          end
      end
  end.

End json.

(** ** gomemcache: items and the results of [Get] and [Set] *)

Module memcache.

Record Item := { Key : string; Value : string }.

(** [client.Get(key)] returns an item and a nil error, or an error:
    [ErrCacheMiss] or a fault of the connection. *)
Inductive got := Found (item : Item) | GetError (err : string).

End memcache.

(** ** The handler *)

(** [db.QueryRow(...).Scan(&payload)]: the one text column of the row,
    or the error. *)
Inductive scanned := Payload (json : string) | ScanError (err : string).

(** What a request makes the handler do outside itself, in order. *)
Inductive event :=
| CacheGet (key : string)
| Query (c : call)
| CacheSet (item : memcache.Item).

Definition is_query (e : event) : bool :=
  match e with Query _ => true | _ => false end.

Definition is_cache_set (e : event) : bool :=
  match e with CacheSet _ => true | _ => false end.

Section Gateway.

(** The database behind [db]: its state, and what evaluating a call of
    a stored function returns and leaves. *)
Context {DB : Type}.
Variable QueryRow : DB -> call -> scanned * DB.

(** The memcache server behind [mc]: its state, a lookup (a read, which
    leaves the server as it is), and a store with the error the client
    reports and the state it leaves. *)
Context {MC : Type}.
Variable mc_Get : MC -> string -> memcache.got.
Variable mc_Set : MC -> memcache.Item -> option string * MC.

(** The printable runes above U+00FF, for [%q]. *)
Variable isPrintTable : Z -> bool.

(** The package variables [db] and [mc]; [mc] is nil unless a memcache
    URI was given. *)
Record World := { db : DB; mc : option MC }.

(** [fmt.Sprintf] of the error format. *)
Definition error_text (err : string) : string :=
  "{ " ++ dq ++ "error" ++ dq ++ ": " ++ strconv.Quote isPrintTable err ++ " }".

Definition httpJSONError (response : http.ResponseWriter) (err : string)
    (status : Z) : http.ResponseWriter :=
  http.Error response (error_text err) status.

Definition reply : Type := http.ResponseWriter * World * list event.

(** The handler from [query := request.URL.Query()] on, reached when
    the cache did not answer: [hash] is the key computed before, [trace]
    what was done before. *)
Definition handler_uncached (w : World) (request : Request)
    (response : http.ResponseWriter) (hash : string) (trace : list event) : reply :=
  match dispatch request with
  | None => (httpJSONError response unknown_operation 400, w, trace)
  | Some c =>
      let '(result, db') := QueryRow (db w) c in
      match result with
      | ScanError err =>
          (httpJSONError response err 400, {| db := db'; mc := mc w |},
           (trace ++ [Query c])%list)
      | Payload payload =>
          let response := http.Write payload response in
          match mc w with
          | Some client =>
              let item := {| memcache.Key := hash; memcache.Value := payload |} in
              let '(_, client') := mc_Set client item in
              (response, {| db := db'; mc := Some client' |},
               (trace ++ [Query c; CacheSet item])%list)
          | None =>
              (response, {| db := db'; mc := None |}, (trace ++ [Query c])%list)
          end
      end
  end.

Definition handler (w : World) (request : Request) : reply :=
  let response :=
    http.Header_Set "Content-Type" "application/json" http.NewResponse in
  match mc w with
  | Some client =>
      let hash := fingerprint request in
      match mc_Get client hash with
      | memcache.Found cached =>
          (http.Write (memcache.Value cached) response, w, [CacheGet hash])
      | memcache.GetError _ =>
          handler_uncached w request response hash [CacheGet hash]
      end
  | None => handler_uncached w request response EmptyString []
  end.

Definition response_of (r : reply) : http.ResponseWriter := fst (fst r).
Definition world_of (r : reply) : World := snd (fst r).
Definition trace_of (r : reply) : list event := snd r.

End Gateway.

(** ** The operation table

    The branches of the handler read as data: per operation its flag,
    the stored function it calls, and where each argument comes from and
    what it is cast to. [table_statement] and [dispatch_selected] below
    tie the table to the branches themselves. *)

Inductive source := FromPath | FromForm (name : string).

Record parameter := { src : source; ty : type }.

Record operation := {
  flagName : string;
  callTemplate : string;
  parameters : list parameter;
  statement : Request -> call
}.

Definition path_text : parameter := {| src := FromPath; ty := text |}.
Definition form (name : string) (t : type) : parameter :=
  {| src := FromForm name; ty := t |}.

Definition intersects_op : operation :=
  {| flagName := "intersects"; callTemplate := "mas_intersects";
     parameters :=
       [ path_text; form "srs" text; form "wkt" text; form "nseg" integer;
         form "time" timestamptz; form "until" timestamptz;
         form "namespace" text_array; form "metadata" text;
         form "identitytol" float8; form "dptol" float; form "limit" int ];
     statement := mas_intersects |}.

Definition timestamps_op : operation :=
  {| flagName := "timestamps"; callTemplate := "mas_timestamps";
     parameters :=
       [ path_text; form "time" timestamptz; form "until" timestamptz;
         form "namespace" text_array; form "token" text ];
     statement := mas_timestamps |}.

Definition extents_op : operation :=
  {| flagName := "extents"; callTemplate := "mas_spatial_temporal_extents";
     parameters := [ path_text; form "namespace" text_array ];
     statement := mas_spatial_temporal_extents |}.

Definition list_root_gpath_op : operation :=
  {| flagName := "list_root_gpath"; callTemplate := "mas_list_root_gpath";
     parameters := [];
     statement := mas_list_root_gpath |}.

Definition list_sub_gpath_op : operation :=
  {| flagName := "list_sub_gpath"; callTemplate := "mas_list_sub_gpath";
     parameters := [ path_text ];
     statement := mas_list_sub_gpath |}.

Definition generate_layers_op : operation :=
  {| flagName := "generate_layers"; callTemplate := "mas_generate_layers";
     parameters := [ path_text ];
     statement := mas_generate_layers |}.

Definition put_ows_cache_op : operation :=
  {| flagName := "put_ows_cache"; callTemplate := "mas_put_ows_cache";
     parameters := [ path_text; form "query" text; form "value" jsonb ];
     statement := mas_put_ows_cache |}.

Definition get_ows_cache_op : operation :=
  {| flagName := "get_ows_cache"; callTemplate := "mas_get_ows_cache";
     parameters := [ path_text; form "query" text ];
     statement := mas_get_ows_cache |}.

(** The operations in the order of the handler's branches. *)
Definition operation_table : list operation :=
  [ intersects_op; timestamps_op; extents_op; list_root_gpath_op;
    list_sub_gpath_op; generate_layers_op; put_ows_cache_op; get_ows_cache_op ].

(** The raw string a parameter is bound to. *)
Definition raw_value (request : Request) (p : parameter) : string :=
  match src p with
  | FromPath => URL_Path request
  | FromForm name => FormValue request name
  end.

(** The argument a parameter becomes. *)
Definition coerce (request : Request) (p : parameter) : datum :=
  match ty p with
  | text_array => nullif_array (raw_value request p)
  | t => nullif_cast (raw_value request p) t
  end.

(** The first operation of the table whose flag is a key of the query. *)
Definition selected (request : Request) : option operation :=
  find (fun op => has_key (URL_Query request) (flagName op)) operation_table.

(** What a non-empty raw string is passed on as. *)
Definition parsed (t : type) (raw : string) : datum :=
  match t with
  | text_array => Arr (split "," raw)
  | _ => Val t raw
  end.

(** A string in which the character [d] does not occur. *)
Definition free (d : ascii) (s : string) : Prop :=
  ~ In d (list_ascii_of_string s).

(** [contains needle s]: [needle] occurs in [s]. *)
Fixpoint contains (needle s : string) : bool :=
  String.prefix needle s ||
  match s with
  | EmptyString => false
  | String _ rest => contains needle rest
  end.

(** A printable ASCII character other than the double quote and the
    backslash: what [%q] and JSON both write as it is. *)
Definition plain (c : ascii) : bool :=
  utf8.between 32 126 (byte_of c) && negb (Ascii.eqb c dquote)
  && negb (Ascii.eqb c backslash).

Definition plain_text (s : string) : bool :=
  forallb plain (list_ascii_of_string s).

(** The error reply up to the first character of the message. *)
Definition error_prefix : string :=
  "{ " ++ dq ++ "error" ++ dq ++ ": " ++ dq.

(** The flags in the order the handler tests them. *)
Definition recognized_flags : list string :=
  [ "intersects"; "timestamps"; "extents"; "list_root_gpath"; "list_sub_gpath";
    "generate_layers"; "put_ows_cache"; "get_ows_cache" ].

(** A form value that is not in the request, and one that is there as
    the empty string. *)
Definition absent (request : Request) (name : string) : Prop :=
  Form request !! name = None.

Definition supplied_empty (request : Request) (name : string) : Prop :=
  exists more, Form request !! name = Some (EmptyString :: more).

(** A non-null argument that is empty: the empty text under any type,
    or the empty array. *)
Definition empty_value (a : datum) : bool :=
  match a with
  | Val _ EmptyString => true
  | Arr [] => true
  | _ => false
  end.

(** ** Stand-ins for the collaborators

    A database and two memcache servers to run the handler against. *)

Module Sim.

Definition all_digits (s : string) : bool :=
  negb (String.eqb s EmptyString) &&
  forallb (fun c => utf8.between 48 57 (byte_of c)) (list_ascii_of_string s).

(** The text of an integer argument that is not a number. *)
Definition bad_integer (a : datum) : option string :=
  match a with
  | Val integer s | Val int s => if all_digits s then None else Some s
  | _ => None
  end.

Definition names (log : list call) : string :=
  "[" ++ String.concat "," (map (fun c => dq ++ proc c ++ dq) log) ++ "]".

(** A database that keeps the calls it has evaluated: a call with an
    integer argument that is not a number fails as Postgres' cast does,
    any other call is recorded and answered with the names of the
    functions called so far. *)
Definition QueryRow (log : list call) (c : call) : scanned * list call :=
  match list_find (fun a => is_Some (bad_integer a)) (actuals c) with
  | Some (_, Val _ s) =>
      (ScanError ("pq: invalid input syntax for integer: " ++ dq ++ s ++ dq), log)
  | _ => (Payload (names (log ++ [c])), (log ++ [c])%list)
  end.

(** A memcache server that keeps what it is given. *)
Definition Get (m : gmap string string) (key : string) : memcache.got :=
  match m !! key with
  | Some v => memcache.Found {| memcache.Key := key; memcache.Value := v |}
  | None => memcache.GetError "memcache: cache miss"
  end.

Definition Set_ (m : gmap string string) (item : memcache.Item)
    : option string * gmap string string :=
  (None, <[memcache.Key item := memcache.Value item]> m).

(** A memcache server that cannot be reached. *)
Definition down_Get (_ : unit) (key : string) : memcache.got :=
  memcache.GetError "memcache: connect timeout".

Definition down_Set (u : unit) (item : memcache.Item) : option string * unit :=
  (Some "memcache: connect timeout", u).

(** No rune above U+00FF counts as printable. *)
Definition isPrintTable (r : Z) : bool := false.

(** A GET request: its path, its request URI and the parsed query,
    which is the form as well. *)
Definition GET (path uri : string) (query : list (string * list string)) : Request :=
  {| URL_Path := path; URL_RequestURI := uri;
     URL_Query := list_to_map query; Form := list_to_map query |}.

(** The requests of the examples. *)
Definition flag (name : string) : string * list string := (name, [EmptyString]).

Definition intersects_request : Request :=
  GET "/ns/a/b" "/ns/a/b?intersects&wkt=POINT(1%202)&srs=4326"
    [flag "intersects"; ("wkt", ["POINT(1 2)"]); ("srs", ["4326"])].

Definition timestamps_request : Request :=
  GET "/" "/?timestamps&namespace=a,b,c"
    [flag "timestamps"; ("namespace", ["a,b,c"])].

Definition timestamps_bare : Request :=
  GET "/" "/?timestamps" [flag "timestamps"].

Definition timestamps_empty_namespace : Request :=
  GET "/" "/?namespace=&timestamps" [("namespace", [EmptyString]); flag "timestamps"].

Definition two_flags_request : Request :=
  GET "/ns" "/ns?get_ows_cache&extents&query=q"
    [flag "get_ows_cache"; flag "extents"; ("query", ["q"])].

Definition put_request : Request :=
  GET "/ns" "/ns?put_ows_cache&query=q&value=%7B%7D"
    [flag "put_ows_cache"; ("query", ["q"]); ("value", ["{}"])].

Definition no_flag_request : Request := GET "/" "/" [].

(** [nseg] is the one byte 7, the bell character. *)
Definition bell : string := String "007"%char EmptyString.

Definition bell_request : Request :=
  GET "/" "/?intersects&nseg=%07" [flag "intersects"; ("nseg", [bell])].

(** The worlds of the examples: no cache configured, an empty cache, a
    cache that cannot be reached. *)
Definition no_cache : @World (list call) (gmap string string) :=
  {| db := []; mc := None |}.

Definition empty_cache : @World (list call) (gmap string string) :=
  {| db := []; mc := Some ∅ |}.

Definition cache_down : @World (list call) unit :=
  {| db := []; mc := Some tt |}.

(** A cache that holds an entry for [timestamps_request]. *)
Definition stale : string := "[1,2,3]".

Definition warm_cache : @World (list call) (gmap string string) :=
  {| db := []; mc := Some {[ fingerprint timestamps_request := stale ]} |}.

Definition handler {MC : Type} (get : MC -> string -> memcache.got)
    (set : MC -> memcache.Item -> option string * MC)
    (w : World) (request : Request) : reply :=
  handler QueryRow get set isPrintTable w request.

End Sim.

(** ** Further notions for the properties of the handler *)

(** The cache does not answer the request: there is none, or the lookup
    of the request's fingerprint returns an error. *)
Definition unanswered {DB MC : Type} (mc_Get : MC -> string -> memcache.got)
    (w : @World DB MC) (request : Request) : Prop :=
  match mc w with
  | None => True
  | Some client =>
      exists err, mc_Get client (fingerprint request) = memcache.GetError err
  end.

(** What the handler has done before the dispatch: the lookup when
    there is a cache. *)
Definition looked_up {DB MC : Type} (w : @World DB MC) (request : Request)
    : list event :=
  match mc w with
  | None => []
  | Some _ => [CacheGet (fingerprint request)]
  end.

(** The header the handler starts every reply with. *)
Definition json_header : http.ResponseWriter :=
  http.Header_Set "Content-Type" "application/json" http.NewResponse.

(** A character [%q] writes as itself or as an escape JSON has too:
    printable ASCII, and backspace, tab, newline, form feed and carriage
    return. *)
Definition json_safe (c : ascii) : bool :=
  let b := byte_of c in
  utf8.between 32 126 b || utf8.between 8 10 b || utf8.between 12 13 b.

Definition json_safe_text (s : string) : bool :=
  forallb json_safe (list_ascii_of_string s).

(** A lower-case hexadecimal digit. *)
Definition lower_hex (c : ascii) : bool :=
  let b := byte_of c in utf8.between 48 57 b || utf8.between 97 102 b.

(** ** The ways a request ends *)

Section Endings.

Context {DB MC : Type}.
Variable QueryRow : DB -> call -> scanned * DB.
Variable mc_Get : MC -> string -> memcache.got.
Variable mc_Set : MC -> memcache.Item -> option string * MC.
Variable isPrintTable : Z -> bool.

Local Abbreviation silent := (unanswered mc_Get).

(** The reply of the handler is one of these: the cached bytes; the
    fixed message for no flag; the error of the query; the payload, with
    no cache; the payload, stored in the cache. *)
Inductive ending (w : @World DB MC) (request : Request) : reply -> Prop :=
| from_cache client cached :
    mc w = Some client ->
    mc_Get client (fingerprint request) = memcache.Found cached ->
    ending w request
      (http.Write (memcache.Value cached) json_header, w,
       [CacheGet (fingerprint request)])
| unknown :
    silent w request -> dispatch request = None ->
    ending w request
      (httpJSONError isPrintTable json_header unknown_operation 400, w,
       looked_up w request)
| failed c err d :
    silent w request -> dispatch request = Some c ->
    QueryRow (db w) c = (ScanError err, d) ->
    ending w request
      (httpJSONError isPrintTable json_header err 400,
       {| db := d; mc := mc w |},
       (looked_up w request ++ [Query c])%list)
| served_uncached c payload d :
    mc w = None -> dispatch request = Some c ->
    QueryRow (db w) c = (Payload payload, d) ->
    ending w request
      (http.Write payload json_header, {| db := d; mc := None |}, [Query c])
| served_and_stored client c payload d :
    mc w = Some client -> silent w request -> dispatch request = Some c ->
    QueryRow (db w) c = (Payload payload, d) ->
    ending w request
      (http.Write payload json_header,
       {| db := d;
          mc := Some (snd (mc_Set client
                             {| memcache.Key := fingerprint request;
                                memcache.Value := payload |})) |},
       [ CacheGet (fingerprint request); Query c;
         CacheSet {| memcache.Key := fingerprint request;
                     memcache.Value := payload |} ]).

End Endings.

(** ** Start-up ([main])

    The flags, the connection string built from them, and the steps of
    [main] up to the call of [http.ListenAndServe], which returns only
    to end the process. *)

Module startup.

Record Flags := {
  dbHost : string;
  dbName : string;
  dbUser : string;
  dbPassword : string;
  dbPool : Z;
  dbLimit : Z;
  httpPort : Z;
  mcURI : string
}.

(** The values of the flags that are not given. *)
Definition defaults : Flags :=
  {| dbHost := "/var/run/postgresql"; dbName := "mas"; dbUser := "api";
     dbPassword := ""; dbPool := 8; dbLimit := 64; httpPort := 8080;
     mcURI := "" |}.

(** The [%d] verb. *)
Definition decimal (n : Z) : string := NilZero.string_of_int (Z.to_int n).

(** The connection string: the password is added when it is not
    empty. *)
Definition dbinfo (f : Flags) : string :=
  let dbinfo :=
    "user=" ++ dbUser f ++ " host=" ++ dbHost f ++ " dbname=" ++ dbName f
    ++ " sslmode=disable" in
  if String.eqb (dbPassword f) "" then dbinfo
  else dbinfo ++ " password=" ++ dbPassword f.

(** What [main] does to the outside, in order; [Close] is the deferred
    [db.Close()]. *)
Inductive step :=
| Open (dsn : string)
| SelectTrue
| SetMaxIdleConns (n : Z)
| SetMaxOpenConns (n : Z)
| New (uri : string)
| ListenAndServe (addr : string)
| Close.

Section Main.

Context {DB MC : Type}.

(** [sql.Open] of the postgres driver, the test query on the handle it
    returns, and [memcache.New]. *)
Variable sql_Open : string -> DB + string.
Variable select_true : DB -> scanned * DB.
Variable memcache_New : string -> MC.

(** How [main] goes on: it panics, or it calls [ListenAndServe] with the
    package variables as they are then. *)
Inductive started :=
| Panicked (err : string)
| Serving (addr : string) (w : @World DB MC).

Definition main (f : Flags) : started * list step :=
  let dsn := dbinfo f in
  match sql_Open dsn with
  | inr err => (Panicked err, [Open dsn])
  | inl d =>
      match select_true d with
      | (ScanError err, _) => (Panicked err, [Open dsn; SelectTrue; Close])
      | (Payload _, d) =>
          let addr := ":" ++ decimal (httpPort f) in
          if String.eqb (mcURI f) "" then
            (Serving addr {| db := d; mc := None |},
             [ Open dsn; SelectTrue; SetMaxIdleConns (dbPool f);
               SetMaxOpenConns (dbLimit f); ListenAndServe addr ])
          else
            (Serving addr {| db := d; mc := Some (memcache_New (mcURI f)) |},
             [ Open dsn; SelectTrue; SetMaxIdleConns (dbPool f);
               SetMaxOpenConns (dbLimit f); New (mcURI f); ListenAndServe addr ])
      end
  end.

End Main.

End startup.

(** ** Further requests and collaborators for the examples *)

Module Fixtures.

(** [Sim.timestamps_request] sent again with a body: the same request
    URI, other values in the form. *)
Definition timestamps_with_body : Request :=
  {| URL_Path := "/"; URL_RequestURI := "/?timestamps&namespace=a,b,c";
     URL_Query := list_to_map [Sim.flag "timestamps"; ("namespace", ["a,b,c"])];
     Form := list_to_map [("namespace", ["x"]); ("token", ["t"]);
                          Sim.flag "timestamps"] |}.

(** [Sim.timestamps_request] with a value for the flag, a second value
    for [namespace] and a parameter the operation does not take. *)
Definition timestamps_noisy : Request :=
  Sim.GET "/" "/?timestamps=1&namespace=a,b,c&namespace=z&srs=4326"
    [("timestamps", ["1"]); ("namespace", ["a,b,c"; "z"]); ("srs", ["4326"])].

Definition bad_integer_request : Request :=
  Sim.GET "/" "/?intersects&nseg=abc" [Sim.flag "intersects"; ("nseg", ["abc"])].

(** What the handler stores for [Sim.put_request] on an empty cache. *)
Definition stored_put : memcache.Item :=
  {| memcache.Key := fingerprint Sim.put_request;
     memcache.Value := Sim.names [mas_put_ows_cache Sim.put_request] |}.

Definition empty_path_request : Request :=
  Sim.GET "" "/?list_sub_gpath" [Sim.flag "list_sub_gpath"].

(** A database that can be opened and answers the test query, and one
    whose test query fails. *)
Definition sql_Open (dsn : string) : list call + string := inl [].

Definition select_true (d : list call) : scanned * list call :=
  (Payload "true", d).

Definition select_fails (d : list call) : scanned * list call :=
  (ScanError "pq: password authentication failed", d).

Definition memcache_New (uri : string) : gmap string string := ∅.

End Fixtures.

(** ** Properties *)

Example md5_empty :
  hex.EncodeToString (md5.Sum "") = "d41d8cd98f00b204e9800998ecf8427e".
Proof. vm_compute. reflexivity. Qed.

Example md5_abc :
  hex.EncodeToString (md5.Sum "abc") = "900150983cd24fb0d6963f7d28e17f72".
Proof. vm_compute. reflexivity. Qed.

Example md5_request_uri :
  hex.EncodeToString (md5.Sum "/ns/a/b?intersects&wkt=POINT(1%202)&srs=4326")
  = "6b6d516bd66f43fa08ecf656d11e90d8".
Proof. vm_compute. reflexivity. Qed.

Example md5_two_blocks :
  hex.EncodeToString (md5.Sum (string_of (repeat 97%Z 119)))
  = "8a7bd0732ed6a28ce75f6dabc90e1613".
Proof. vm_compute. reflexivity. Qed.

Example md5_56 :
  hex.EncodeToString (md5.Sum (string_of (repeat 97%Z 56)))
  = "3b0c8ac703f828b04c6c197006d17218".
Proof. vm_compute. reflexivity. Qed.


Lemma table_statement op request :
  In op operation_table ->
  statement op request =
    {| proc := callTemplate op;
       actuals := map (coerce request) (parameters op) |}.
Proof.
  unfold operation_table. simpl.
  intros H. repeat (destruct H as [<- | H]; [reflexivity |]). destruct H.
Qed.

Lemma dispatch_selected request :
  dispatch request = option_map (fun op => statement op request) (selected request).
Proof.
  unfold dispatch, selected, operation_table. cbn [find flagName].
  repeat (destruct (has_key _ _); [reflexivity |]). reflexivity.
Qed.

Lemma selected_in_table request op :
  selected request = Some op ->
  In op operation_table /\ has_key (URL_Query request) (flagName op) = true.
Proof. unfold selected. apply find_some. Qed.

Lemma nullif_empty raw :
  nullif raw "" = if decide (raw = "") then None else Some raw.
Proof.
  unfold nullif. destruct (String.eqb_spec raw ""); case_decide; congruence.
Qed.

Lemma coerce_form request name t :
  let raw := FormValue request name in
  coerce request (form name t) =
    if decide (raw = "") then Null t else parsed t raw.
Proof.
  intros raw. unfold coerce, nullif_array, nullif_cast, raw_value.
  cbn [ty src form]. fold raw. rewrite nullif_empty.
  destruct t; case_decide as Hraw; try reflexivity; cbn.
  destruct raw; [contradiction | reflexivity].
Qed.

(** *** Splitting on a delimiter *)

Section Split.

Variable d : ascii.

Let sep : string := String d EmptyString.
Let free : string -> Prop := free d.

Lemma split_not_nil s : split d s <> [].
Proof.
  destruct s as [| c rest]; cbn; [discriminate |].
  destruct (Ascii.eqb c d); [discriminate |].
  destruct (split d rest); discriminate.
Qed.

Lemma concat_cons x y ys :
  String.concat sep (x :: y :: ys) = x ++ sep ++ String.concat sep (y :: ys).
Proof. reflexivity. Qed.

Lemma split_join s : String.concat sep (split d s) = s.
Proof.
  induction s as [| c rest IH]; [reflexivity |]. cbn [split].
  destruct (Ascii.eqb_spec c d) as [-> | Hc].
  - pose proof (split_not_nil rest) as Hne.
    destruct (split d rest) as [| f fs]; [contradiction |].
    rewrite concat_cons, IH. reflexivity.
  - pose proof (split_not_nil rest) as Hne.
    destruct (split d rest) as [| f fs]; [contradiction |].
    destruct fs as [| g gs].
    + cbn in *. congruence.
    + rewrite concat_cons in *. rewrite <- IH. reflexivity.
Qed.

Lemma split_fields_free s : Forall free (split d s).
Proof.
  induction s as [| c rest IH]; cbn [split].
  - constructor; [intros [] | constructor].
  - destruct (Ascii.eqb_spec c d) as [-> | Hc].
    + constructor; [intros [] | exact IH].
    + destruct (split d rest) as [| f fs].
      * constructor; [| constructor]. intros [H | []]. congruence.
      * inversion IH as [| ? ? Hf Hfs]; subst. constructor; [| exact Hfs].
        intros [H | H]; [congruence | exact (Hf H)].
Qed.

Lemma split_free_prefix f rest :
  free f -> split d (f ++ String d rest) = f :: split d rest.
Proof.
  induction f as [| c f IH]; intros Hf; simpl.
  - rewrite Ascii.eqb_refl. reflexivity.
  - destruct (Ascii.eqb_spec c d) as [-> | Hc].
    + exfalso. apply Hf. left. reflexivity.
    + rewrite IH; [reflexivity |]. intros H. apply Hf. right. exact H.
Qed.

Lemma split_free f : free f -> split d f = [f].
Proof.
  induction f as [| c f IH]; intros Hf; cbn [split]; [reflexivity |].
  destruct (Ascii.eqb_spec c d) as [-> | Hc].
  - exfalso. apply Hf. left. reflexivity.
  - rewrite IH; [reflexivity |]. intros H. apply Hf. right. exact H.
Qed.

(** The fields are determined by the string: a non-empty sequence of
    delimiter-free fields is what its join splits into. *)
Lemma split_of_join fields :
  fields <> [] -> Forall free fields ->
  split d (String.concat sep fields) = fields.
Proof.
  induction fields as [| f fs IH]; intros Hne Hfree; [contradiction |].
  inversion Hfree as [| ? ? Hf Hfs]; subst.
  destruct fs as [| g gs].
  - cbn. apply split_free, Hf.
  - rewrite concat_cons.
    change (split d (f ++ String d (String.concat sep (g :: gs))) = f :: g :: gs).
    rewrite split_free_prefix by exact Hf.
    rewrite IH; [reflexivity | discriminate | exact Hfs].
Qed.

End Split.

(** *** Dispatch *)

Lemma find_first {A} (f : A -> bool) (l : list A) (x : A) :
  find f l = Some x ->
  exists before after,
    l = (before ++ x :: after)%list /\ f x = true /\
    Forall (fun y => f y = false) before.
Proof.
  induction l as [| y l IH]; cbn [find]; [discriminate |].
  destruct (f y) eqn:Hy.
  - intros [= <-]. exists [], l. repeat split; [exact Hy | constructor].
  - intros H. destruct (IH H) as (before & after & -> & Hx & Hb).
    exists (y :: before), after. repeat split; [exact Hx |].
    constructor; assumption.
Qed.

Lemma table_flags : map flagName operation_table = recognized_flags.
Proof. reflexivity. Qed.

Lemma selected_some request flag :
  In flag recognized_flags -> has_key (URL_Query request) flag = true ->
  exists op, selected request = Some op.
Proof.
  intros Hin Hkey. unfold selected.
  destruct (find _ operation_table) as [op |] eqn:Hfind; [eauto |].
  rewrite <- table_flags in Hin. apply in_map_iff in Hin as (op & <- & Hop).
  pose proof (find_none _ _ Hfind op Hop) as Hno. cbn beta in Hno. congruence.
Qed.

Lemma dispatch_ext request request' :
  URL_Path request' = URL_Path request ->
  (forall flag, In flag recognized_flags ->
     has_key (URL_Query request') flag = has_key (URL_Query request) flag) ->
  (forall name, FormValue request' name = FormValue request name) ->
  dispatch request' = dispatch request.
Proof.
  intros Hpath Hflags Hform. unfold dispatch.
  cbv zeta.
  rewrite !Hflags by (cbn; tauto).
  unfold mas_intersects, mas_timestamps, mas_spatial_temporal_extents,
    mas_list_root_gpath, mas_list_sub_gpath, mas_generate_layers,
    mas_put_ows_cache, mas_get_ows_cache.
  rewrite Hpath, !Hform. reflexivity.
Qed.

Lemma FormValue_absent request name : absent request name -> FormValue request name = "".
Proof. unfold absent, FormValue. intros ->. reflexivity. Qed.

Lemma FormValue_supplied_empty request name :
  supplied_empty request name -> FormValue request name = "".
Proof. unfold FormValue. intros [more ->]. reflexivity. Qed.

Lemma coerce_not_empty request p : empty_value (coerce request p) = false.
Proof.
  unfold coerce, nullif_array, nullif_cast, nullif.
  destruct (raw_value request p) as [| c rest]; destruct (ty p); try reflexivity.
  cbn. destruct (Ascii.eqb c ","); [reflexivity |].
  destruct (split "," rest); reflexivity.
Qed.

(** The argument at a form-sourced position of the dispatched
    statement. *)
Lemma form_argument request op i name t :
  selected request = Some op ->
  parameters op !! i = Some (form name t) ->
  exists c, dispatch request = Some c /\
    actuals c !! i = Some (coerce request (form name t)).
Proof.
  intros Hsel Hpar. destruct (selected_in_table _ _ Hsel) as [Hin _].
  rewrite dispatch_selected, Hsel. cbn [option_map]. eexists. split; [reflexivity |].
  rewrite table_statement by exact Hin. cbn [actuals].
  rewrite list_lookup_fmap, Hpar. reflexivity.
Qed.

(** C1: for every parameter an operation takes from a named form value,
    the statement the handler dispatches to passes NULL of the
    parameter's type when the form value is the empty string, and passes
    a non-empty form value on as it is, to be read as that type (split
    on commas for the array type). *)
Theorem C1_empty_form_value_is_null request op i name t :
  selected request = Some op ->
  parameters op !! i = Some (form name t) ->
  exists c, dispatch request = Some c /\
    (FormValue request name = "" -> actuals c !! i = Some (Null t)) /\
    (FormValue request name <> "" ->
       actuals c !! i = Some (parsed t (FormValue request name))).
Proof.
  intros Hsel Hpar.
  destruct (form_argument _ _ _ _ _ Hsel Hpar) as (c & Hc & Harg).
  exists c. split; [exact Hc |].
  rewrite Harg, coerce_form. split; intros Hraw; case_decide; congruence.
Qed.

(** C2: for a list-typed parameter the statement passes NULL, not an
    array, when the form value is empty; a non-empty form value is
    passed as the array of its comma-delimited fields, in order: the
    fields joined by commas give the value back, no field holds a comma,
    and no other sequence of comma-free fields joins to the value. *)
Theorem C2_list_parameter_is_split request op i name :
  selected request = Some op ->
  parameters op !! i = Some (form name text_array) ->
  exists c, dispatch request = Some c /\
    (FormValue request name = "" -> actuals c !! i = Some (Null text_array)) /\
    (FormValue request name <> "" ->
       actuals c !! i = Some (Arr (split "," (FormValue request name))) /\
       String.concat "," (split "," (FormValue request name)) = FormValue request name /\
       Forall (free ",") (split "," (FormValue request name)) /\
       forall fields,
         Forall (free ",") fields ->
         String.concat "," fields = FormValue request name ->
         fields = split "," (FormValue request name)).
Proof.
  intros Hsel Hpar.
  destruct (form_argument _ _ _ _ _ Hsel Hpar) as (c & Hc & Harg).
  exists c. split; [exact Hc |]. rewrite Harg, coerce_form.
  split; [intros Hraw; case_decide; congruence |].
  intros Hraw. split; [case_decide; [contradiction | reflexivity] |].
  split; [apply split_join |]. split; [apply split_fields_free |].
  intros fields Hfree Hjoin. rewrite <- Hjoin. symmetry.
  apply split_of_join; [| exact Hfree].
  intros ->. apply Hraw. symmetry. exact Hjoin.
Qed.

(** C10: a form value that is absent from the request and one supplied
    as the empty string cannot be told apart: two requests that differ
    only in this dispatch to the same call, whose argument for the
    parameter is NULL; and no call the handler dispatches to, for any
    request, has an argument that is an empty text or an empty array. *)
Theorem C10_absent_is_supplied_empty request request' op i name t :
  selected request = Some op ->
  parameters op !! i = Some (form name t) ->
  absent request name ->
  supplied_empty request' name ->
  URL_Path request' = URL_Path request ->
  (forall flag, In flag recognized_flags ->
     has_key (URL_Query request') flag = has_key (URL_Query request) flag) ->
  (forall other, other <> name -> FormValue request' other = FormValue request other) ->
  exists c,
    dispatch request = Some c /\ dispatch request' = Some c /\
    actuals c !! i = Some (Null t) /\
    forall any c', dispatch any = Some c' ->
      Forall (fun a => empty_value a = false) (actuals c').
Proof.
  intros Hsel Hpar Habsent Hempty Hpath Hflags Hother.
  destruct (form_argument _ _ _ _ _ Hsel Hpar) as (c & Hc & Harg).
  exists c. split; [exact Hc |]. split; [| split].
  - rewrite <- Hc. apply dispatch_ext; [exact Hpath | exact Hflags |].
    intros other. destruct (decide (other = name)) as [-> | Hne].
    + rewrite (FormValue_absent request), (FormValue_supplied_empty request')
        by assumption. reflexivity.
    + apply Hother, Hne.
  - rewrite Harg, coerce_form, FormValue_absent by exact Habsent. reflexivity.
  - intros any c' Hany. rewrite dispatch_selected in Hany.
    destruct (selected any) as [op' |] eqn:Hsel'; [| discriminate].
    injection Hany as <-.
    rewrite table_statement by (eapply selected_in_table; eassumption).
    apply Forall_map, Forall_forall. intros p _. apply coerce_not_empty.
Qed.

(** *** The error format *)

Lemma append_assoc (a b c : string) : (a ++ b) ++ c = a ++ b ++ c.
Proof.
  induction a as [| x a IH]; [reflexivity |].
  change (String x ((a ++ b) ++ c) = String x (a ++ b ++ c)).
  rewrite IH. reflexivity.
Qed.

Lemma plain_char t c :
  plain c = true ->
  (byte_of c <? utf8.RuneSelf)%Z = true /\
  (byte_of c =? utf8.RuneError)%Z = false /\
  strconv.escapedRune t (byte_of c) = String c "" /\
  Ascii.eqb c dquote = false /\ Ascii.eqb c backslash = false /\
  (byte_of c <? 32)%Z = false.
Proof.
  destruct c as [[] [] [] [] [] [] [] []]; intros H; vm_compute in H;
    try discriminate H; vm_compute; repeat split; reflexivity.
Qed.

Lemma quoted_plain t s : plain_text s = true -> strconv.quoted t 0 s = s.
Proof.
  unfold plain_text. induction s as [| c rest IH]; [reflexivity |].
  cbn [list_ascii_of_string forallb]. intros [Hc Hrest]%andb_prop.
  destruct (plain_char t c Hc) as (Hlt & Hne & Hesc & _).
  cbn [strconv.quoted]. unfold utf8.DecodeRune, bytes_of.
  cbn [list_ascii_of_string map]. rewrite Hlt, Hne, Hesc.
  change (String c (strconv.quoted t 0 rest) = String c rest).
  rewrite IH by exact Hrest. reflexivity.
Qed.

(** [%q] writes a text of plain characters between two quotes. *)
Lemma Quote_plain t err :
  plain_text err = true -> strconv.Quote t err = dq ++ err ++ dq.
Proof.
  intros H. unfold strconv.Quote. rewrite quoted_plain by exact H. reflexivity.
Qed.

Lemma string_tail_plain s rest :
  plain_text s = true ->
  json.string_tail json.Plain (s ++ dq ++ rest) = Some rest.
Proof.
  unfold plain_text. induction s as [| c s IH].
  - intros _. reflexivity.
  - cbn [list_ascii_of_string forallb]. intros [Hc Hs]%andb_prop.
    destruct (plain_char (fun _ => false) c Hc) as (_ & _ & _ & Hq & Hb & Hctl).
    change (json.string_tail json.Plain (String c (s ++ dq ++ rest)) = Some rest).
    cbn [json.string_tail]. rewrite Hq, Hb, Hctl. apply IH, Hs.
Qed.

Lemma error_object_prefix rest :
  json.error_object (error_prefix ++ rest) =
    match json.string_tail json.Plain rest with
    | Some s =>
        match json.expect "}" (json.skip_ws s) with
        | Some s => String.eqb (json.skip_ws s) EmptyString
        | None => false
        end
    | None => false
    end.
Proof. reflexivity. Qed.

(** For an error text of plain characters the line [http.Error] writes
    holds the text as it is and is a JSON object. *)
Lemma plain_error_is_json t err :
  plain_text err = true ->
  error_text t err ++ newline = error_prefix ++ err ++ dq ++ " }" ++ newline /\
  json.error_object (error_text t err ++ newline) = true.
Proof.
  intros H.
  assert (E : error_text t err ++ newline
              = error_prefix ++ err ++ dq ++ " }" ++ newline).
  { unfold error_text, error_prefix. rewrite Quote_plain by exact H.
    rewrite !append_assoc. reflexivity. }
  split; [exact E |].
  rewrite E, error_object_prefix, string_tail_plain by exact H. reflexivity.
Qed.

(** *** The handler *)

Section GatewayFacts.

Context {DB MC : Type}.
Variable QueryRow : DB -> call -> scanned * DB.
Variable mc_Get : MC -> string -> memcache.got.
Variable mc_Set : MC -> memcache.Item -> option string * MC.
Variable isPrintTable : Z -> bool.

Local Abbreviation run := (handler QueryRow mc_Get mc_Set isPrintTable).
Local Abbreviation run_uncached := (handler_uncached QueryRow mc_Set isPrintTable).

(** C9: with the cache enabled and the fingerprint of the request found
    in it, the handler replies with the cached bytes and status 200 and
    returns; the only thing it did was the lookup, so no statement was
    dispatched or sent to the database and nothing was stored, and the
    database and the cache are as before. *)
Theorem C9_cache_hit_returns_cached w request client cached :
  mc w = Some client ->
  mc_Get client (fingerprint request) = memcache.Found cached ->
  http.body (response_of (run w request)) = memcache.Value cached /\
  http.StatusCode (response_of (run w request)) = 200%Z /\
  world_of (run w request) = w /\
  trace_of (run w request) = [CacheGet (fingerprint request)].
Proof.
  intros Hmc Hget. unfold handler. rewrite Hmc, Hget.
  repeat split; reflexivity.
Qed.

(** The final [else]: with none of the flags in the query, past the
    cache lookup the handler sends the fixed message with status 400 and
    does nothing else. *)
Lemma unknown_operation_reply w request hash trace :
  Forall (fun flag => has_key (URL_Query request) flag = false) recognized_flags ->
  let r := run_uncached w request
             (http.Header_Set "Content-Type" "application/json" http.NewResponse)
             hash trace in
  http.StatusCode (response_of r) = 400%Z /\
  http.body (response_of r) = error_text isPrintTable unknown_operation ++ newline /\
  world_of r = w /\ trace_of r = trace.
Proof.
  intros Hnone r. subst r. unfold handler_uncached.
  assert (Hd : dispatch request = None).
  { unfold dispatch. cbv zeta. unfold recognized_flags in Hnone.
    repeat (apply List.Forall_cons_iff in Hnone as [-> Hnone]). reflexivity. }
  rewrite Hd. unfold response_of, world_of, trace_of. cbn [fst snd].
  repeat split; reflexivity.
Qed.

(** The [err != nil] branch: the database is queried once, nothing is
    stored, and the reply is the formatted error text with status 400. *)
Lemma backend_error_reply w request hash trace c err d' :
  dispatch request = Some c ->
  QueryRow (db w) c = (ScanError err, d') ->
  let r := run_uncached w request
             (http.Header_Set "Content-Type" "application/json" http.NewResponse)
             hash trace in
  http.StatusCode (response_of r) = 400%Z /\
  http.body (response_of r) = error_text isPrintTable err ++ newline /\
  trace_of r = (trace ++ [Query c])%list.
Proof.
  intros Hd Hq r. subst r. unfold handler_uncached. rewrite Hd, Hq.
  repeat split; reflexivity.
Qed.

(** C3: when at least one of the eight flags is a key of the query, the
    handler dispatches to the statement of exactly one operation: the
    first in the order intersects, timestamps, extents, list_root_gpath,
    list_sub_gpath, generate_layers, put_ows_cache, get_ows_cache whose
    flag is present. No earlier operation has its flag present, any other
    operation whose flag is present comes later in the table, and past
    the cache lookup that statement is the one query sent to the
    database. *)
Theorem C3_first_flag_in_table_order w request response hash trace :
  (exists flag, In flag recognized_flags /\ has_key (URL_Query request) flag = true) ->
  exists before op after,
    operation_table = (before ++ op :: after)%list /\
    map flagName operation_table = recognized_flags /\
    has_key (URL_Query request) (flagName op) = true /\
    Forall (fun o => has_key (URL_Query request) (flagName o) = false) before /\
    (forall other, In other operation_table ->
       has_key (URL_Query request) (flagName other) = true ->
       other = op \/ In other after) /\
    dispatch request = Some (statement op request) /\
    List.filter is_query (trace_of (run_uncached w request response hash trace))
      = (List.filter is_query trace ++ [Query (statement op request)])%list.
Proof.
  intros (flag & Hin & Hkey).
  destruct (selected_some _ _ Hin Hkey) as [op Hsel].
  pose proof Hsel as Hfirst. unfold selected in Hfirst.
  apply find_first in Hfirst as (before & after & Htable & Hop & Hbefore).
  exists before, op, after.
  assert (Hd : dispatch request = Some (statement op request))
    by (rewrite dispatch_selected, Hsel; reflexivity).
  repeat split; try assumption.
  - intros other Hother Hhas. rewrite Htable in Hother.
    apply in_app_or in Hother as [Hb | [-> | Ha]]; [| left | right]; try easy.
    rewrite List.Forall_forall in Hbefore. apply Hbefore in Hb. congruence.
  - unfold handler_uncached. rewrite Hd.
    destruct (QueryRow (db w) (statement op request)) as [[payload | err] d'].
    + destruct (mc w) as [client |].
      * destruct (mc_Set client _) as [e client']. unfold trace_of. cbn [snd].
        rewrite List.filter_app. reflexivity.
      * unfold trace_of. cbn [snd]. rewrite List.filter_app. reflexivity.
    + unfold trace_of. cbn [snd]. rewrite List.filter_app. reflexivity.
Qed.

(** C5, as the code has it: with the cache enabled, when a request got
    a successful reply and what that request stored in the cache, if
    anything, is found there under its key when the same request is
    submitted again (the store took effect and the entry was neither
    evicted nor overwritten), the second reply equals the first, byte
    for byte, and comes from the cache: the second run does the lookup
    and nothing else. *)
Theorem C5_same_request_twice w request client :
  mc w = Some client ->
  http.StatusCode (response_of (run w request)) = 200%Z ->
  (forall client' item,
     mc (world_of (run w request)) = Some client' ->
     In (CacheSet item) (trace_of (run w request)) ->
     exists kept, mc_Get client' (memcache.Key item) = memcache.Found kept /\
                  memcache.Value kept = memcache.Value item) ->
  response_of (run (world_of (run w request)) request) = response_of (run w request) /\
  http.body (response_of (run (world_of (run w request)) request))
    = http.body (response_of (run w request)) /\
  trace_of (run (world_of (run w request)) request) = [CacheGet (fingerprint request)].
Proof.
  intros Hmc. remember (run w request) as first eqn:Hfirst.
  unfold handler in Hfirst. rewrite Hmc in Hfirst.
  destruct (mc_Get client (fingerprint request)) as [cached | err] eqn:Hget.
  - subst first. intros _ _. unfold world_of, response_of, trace_of. cbn [fst snd].
    unfold handler. rewrite Hmc, Hget. repeat split; reflexivity.
  - unfold handler_uncached in Hfirst.
    destruct (dispatch request) as [c |]; [| subst first; discriminate].
    destruct (QueryRow (db w) c) as [[payload | e] d']; [| subst first; discriminate].
    rewrite Hmc in Hfirst. destruct (mc_Set client _) as [e client'] eqn:Hset.
    subst first. unfold world_of, response_of, trace_of. cbn [fst snd].
    intros _ Hkept.
    destruct (Hkept client'
                {| memcache.Key := fingerprint request; memcache.Value := payload |}
                eq_refl) as (kept & Hfound & Hvalue).
    { right. right. left. reflexivity. }
    cbn [memcache.Key memcache.Value] in Hfound, Hvalue.
    unfold handler. cbn [mc]. rewrite Hfound, Hvalue. repeat split; reflexivity.
Qed.

(** C6: a cache whose lookup fails, for a miss or for a fault, and
    whatever its store does, changes nothing in the reply: the handler
    replies as it does with no cache configured, sends the database the
    same queries and leaves it in the same state; with no cache
    configured the handler does nothing but query the database. *)
Theorem C6_cache_independence d request client err :
  mc_Get client (fingerprint request) = memcache.GetError err ->
  response_of (run {| db := d; mc := Some client |} request)
    = response_of (run {| db := d; mc := None |} request) /\
  db (world_of (run {| db := d; mc := Some client |} request))
    = db (world_of (run {| db := d; mc := None |} request)) /\
  List.filter is_query (trace_of (run {| db := d; mc := Some client |} request))
    = trace_of (run {| db := d; mc := None |} request) /\
  forallb is_query (trace_of (run {| db := d; mc := None |} request)) = true.
Proof.
  intros Hget. unfold handler. cbn [mc]. rewrite Hget.
  unfold handler_uncached. cbn [mc db].
  destruct (dispatch request) as [c |]; [| repeat split; reflexivity].
  destruct (QueryRow d c) as [[payload | e] d']; [| repeat split; reflexivity].
  destruct (mc_Set client _) as [e client']. repeat split; reflexivity.
Qed.

(** C7, as the code has it: put_ows_cache and get_ows_cache go through
    the response cache as every other operation does. With the cache
    enabled, a request that selects one of them is answered with the
    cached bytes, without a query, when its fingerprint is found; and
    when it is not found and the query succeeds, the payload is the
    reply and is stored under the fingerprint. *)
Theorem C7_cache_mutating_operations_are_cached w request client op :
  mc w = Some client ->
  selected request = Some op ->
  flagName op = "put_ows_cache" \/ flagName op = "get_ows_cache" ->
  (forall cached,
     mc_Get client (fingerprint request) = memcache.Found cached ->
     http.body (response_of (run w request)) = memcache.Value cached /\
     trace_of (run w request) = [CacheGet (fingerprint request)]) /\
  (forall err payload d',
     mc_Get client (fingerprint request) = memcache.GetError err ->
     QueryRow (db w) (statement op request) = (Payload payload, d') ->
     http.body (response_of (run w request)) = payload /\
     trace_of (run w request) =
       [ CacheGet (fingerprint request); Query (statement op request);
         CacheSet {| memcache.Key := fingerprint request;
                     memcache.Value := payload |} ]).
Proof.
  intros Hmc Hsel _. split.
  - intros cached Hget. unfold handler. rewrite Hmc, Hget. split; reflexivity.
  - intros err payload d' Hget Hquery. unfold handler. rewrite Hmc, Hget.
    unfold handler_uncached. rewrite dispatch_selected, Hsel. cbn [option_map].
    rewrite Hquery, Hmc. destruct (mc_Set client _) as [e client'].
    split; reflexivity.
Qed.

End GatewayFacts.

(** *** The handler run on the example requests *)

Example intersects_example :
  dispatch Sim.intersects_request =
    Some {| proc := "mas_intersects";
            actuals :=
              [ Val text "/ns/a/b"; Val text "4326"; Val text "POINT(1 2)";
                Null integer; Null timestamptz; Null timestamptz;
                Null text_array; Null text; Null float8; Null float;
                Null int ] |}.
Proof. vm_compute. reflexivity. Qed.

Example namespace_example :
  option_map actuals (dispatch Sim.timestamps_request) =
    Some [ Val text "/"; Null timestamptz; Null timestamptz;
           Arr ["a"; "b"; "c"]; Null text ].
Proof. vm_compute. reflexivity. Qed.

Lemma C1_witness :
  selected Sim.intersects_request = Some intersects_op /\
  parameters intersects_op !! 3%nat = Some (form "nseg" integer) /\
  exists c, dispatch Sim.intersects_request = Some c /\
    (FormValue Sim.intersects_request "nseg" = "" ->
       actuals c !! 3%nat = Some (Null integer)) /\
    (FormValue Sim.intersects_request "nseg" <> "" ->
       actuals c !! 3%nat =
         Some (parsed integer (FormValue Sim.intersects_request "nseg"))).
Proof.
  assert (Hsel : selected Sim.intersects_request = Some intersects_op)
    by (vm_compute; reflexivity).
  assert (Hpar : parameters intersects_op !! 3%nat = Some (form "nseg" integer))
    by reflexivity.
  split; [exact Hsel |]. split; [exact Hpar |].
  exact (C1_empty_form_value_is_null _ _ _ _ _ Hsel Hpar).
Defined.

Lemma C2_witness :
  selected Sim.timestamps_request = Some timestamps_op /\
  parameters timestamps_op !! 3%nat = Some (form "namespace" text_array) /\
  exists c, dispatch Sim.timestamps_request = Some c /\
    (FormValue Sim.timestamps_request "namespace" = "" ->
       actuals c !! 3%nat = Some (Null text_array)) /\
    (FormValue Sim.timestamps_request "namespace" <> "" ->
       actuals c !! 3%nat =
         Some (Arr (split "," (FormValue Sim.timestamps_request "namespace"))) /\
       String.concat "," (split "," (FormValue Sim.timestamps_request "namespace"))
         = FormValue Sim.timestamps_request "namespace" /\
       Forall (free ",") (split "," (FormValue Sim.timestamps_request "namespace")) /\
       forall fields,
         Forall (free ",") fields ->
         String.concat "," fields = FormValue Sim.timestamps_request "namespace" ->
         fields = split "," (FormValue Sim.timestamps_request "namespace")).
Proof.
  assert (Hsel : selected Sim.timestamps_request = Some timestamps_op)
    by (vm_compute; reflexivity).
  assert (Hpar : parameters timestamps_op !! 3%nat = Some (form "namespace" text_array))
    by reflexivity.
  split; [exact Hsel |]. split; [exact Hpar |].
  exact (C2_list_parameter_is_split _ _ _ _ Hsel Hpar).
Defined.

Lemma C3_witness :
  (exists flag, In flag recognized_flags /\
     has_key (URL_Query Sim.two_flags_request) flag = true) /\
  exists before op after,
    operation_table = (before ++ op :: after)%list /\
    map flagName operation_table = recognized_flags /\
    has_key (URL_Query Sim.two_flags_request) (flagName op) = true /\
    Forall (fun o => has_key (URL_Query Sim.two_flags_request) (flagName o) = false)
      before /\
    (forall other, In other operation_table ->
       has_key (URL_Query Sim.two_flags_request) (flagName other) = true ->
       other = op \/ In other after) /\
    dispatch Sim.two_flags_request = Some (statement op Sim.two_flags_request) /\
    List.filter is_query
      (trace_of (handler_uncached Sim.QueryRow Sim.Set_ Sim.isPrintTable
                   Sim.empty_cache Sim.two_flags_request http.NewResponse "" []))
      = (List.filter is_query [] ++ [Query (statement op Sim.two_flags_request)])%list.
Proof.
  assert (H : exists flag, In flag recognized_flags /\
            has_key (URL_Query Sim.two_flags_request) flag = true).
  { exists "get_ows_cache". split; [cbn; tauto | vm_compute; reflexivity]. }
  split; [exact H |].
  exact (C3_first_flag_in_table_order Sim.QueryRow Sim.Set_ Sim.isPrintTable
           Sim.empty_cache Sim.two_flags_request http.NewResponse "" [] H).
Defined.

Example two_flags_example :
  option_map proc (dispatch Sim.two_flags_request) = Some "mas_spatial_temporal_extents".
Proof. vm_compute. reflexivity. Qed.

Lemma C5_witness :
  mc Sim.empty_cache = Some ∅ /\
  http.StatusCode
    (response_of (Sim.handler Sim.Get Sim.Set_ Sim.empty_cache Sim.put_request))
    = 200%Z /\
  response_of
    (Sim.handler Sim.Get Sim.Set_
       (world_of (Sim.handler Sim.Get Sim.Set_ Sim.empty_cache Sim.put_request))
       Sim.put_request)
    = response_of (Sim.handler Sim.Get Sim.Set_ Sim.empty_cache Sim.put_request) /\
  http.body
    (response_of
       (Sim.handler Sim.Get Sim.Set_
          (world_of (Sim.handler Sim.Get Sim.Set_ Sim.empty_cache Sim.put_request))
          Sim.put_request))
    = http.body
        (response_of (Sim.handler Sim.Get Sim.Set_ Sim.empty_cache Sim.put_request)) /\
  trace_of
    (Sim.handler Sim.Get Sim.Set_
       (world_of (Sim.handler Sim.Get Sim.Set_ Sim.empty_cache Sim.put_request))
       Sim.put_request)
    = [CacheGet (fingerprint Sim.put_request)].
Proof.
  split; [reflexivity |]. split; [vm_compute; reflexivity |].
  apply (C5_same_request_twice Sim.QueryRow Sim.Get Sim.Set_ Sim.isPrintTable
           Sim.empty_cache Sim.put_request ∅).
  - reflexivity.
  - vm_compute. reflexivity.
  - intros client' item Hclient Hstored.
    vm_compute in Hclient. injection Hclient as <-.
    vm_compute in Hstored.
    destruct Hstored as [H | [H | [H | []]]]; try discriminate H.
    injection H as <-. eexists. split; vm_compute; reflexivity.
Defined.

(** C5, as stated, fails: the cache is enabled and evicts nothing, but
    its server cannot be reached, so the store of the first reply is
    lost and its error ignored; the second request is computed afresh by
    a database that has changed meanwhile, and the two replies
    differ. *)
Lemma C5_counterexample :
  mc Sim.cache_down = Some tt /\
  http.StatusCode
    (response_of (handler Sim.QueryRow Sim.down_Get Sim.down_Set Sim.isPrintTable
                    Sim.cache_down Sim.timestamps_request)) = 200%Z /\
  http.body
    (response_of (handler Sim.QueryRow Sim.down_Get Sim.down_Set Sim.isPrintTable
                    Sim.cache_down Sim.timestamps_request))
    = "[" ++ dq ++ "mas_timestamps" ++ dq ++ "]" /\
  http.body
    (response_of
       (handler Sim.QueryRow Sim.down_Get Sim.down_Set Sim.isPrintTable
          (world_of (handler Sim.QueryRow Sim.down_Get Sim.down_Set Sim.isPrintTable
                       Sim.cache_down Sim.timestamps_request))
          Sim.timestamps_request))
    = "[" ++ dq ++ "mas_timestamps" ++ dq ++ "," ++ dq ++ "mas_timestamps" ++ dq ++ "]" /\
  List.filter is_query
    (trace_of
       (handler Sim.QueryRow Sim.down_Get Sim.down_Set Sim.isPrintTable
          (world_of (handler Sim.QueryRow Sim.down_Get Sim.down_Set Sim.isPrintTable
                       Sim.cache_down Sim.timestamps_request))
          Sim.timestamps_request))
    = [Query (mas_timestamps Sim.timestamps_request)].
Proof. vm_compute. repeat split; reflexivity. Qed.

Lemma C6_witness :
  Sim.down_Get tt (fingerprint Sim.timestamps_request)
    = memcache.GetError "memcache: connect timeout" /\
  response_of
    (handler Sim.QueryRow Sim.down_Get Sim.down_Set Sim.isPrintTable
       {| db := []; mc := Some tt |} Sim.timestamps_request)
    = response_of
        (handler Sim.QueryRow Sim.down_Get Sim.down_Set Sim.isPrintTable
           {| db := []; mc := None |} Sim.timestamps_request) /\
  db (world_of
        (handler Sim.QueryRow Sim.down_Get Sim.down_Set Sim.isPrintTable
           {| db := []; mc := Some tt |} Sim.timestamps_request))
    = db (world_of
            (handler Sim.QueryRow Sim.down_Get Sim.down_Set Sim.isPrintTable
               {| db := []; mc := None |} Sim.timestamps_request)) /\
  List.filter is_query
    (trace_of
       (handler Sim.QueryRow Sim.down_Get Sim.down_Set Sim.isPrintTable
          {| db := []; mc := Some tt |} Sim.timestamps_request))
    = trace_of
        (handler Sim.QueryRow Sim.down_Get Sim.down_Set Sim.isPrintTable
           {| db := []; mc := None |} Sim.timestamps_request) /\
  forallb is_query
    (trace_of
       (handler Sim.QueryRow Sim.down_Get Sim.down_Set Sim.isPrintTable
          {| db := []; mc := None |} Sim.timestamps_request)) = true.
Proof.
  split; [reflexivity |].
  exact (C6_cache_independence Sim.QueryRow Sim.down_Get Sim.down_Set
           Sim.isPrintTable [] Sim.timestamps_request tt
           "memcache: connect timeout" eq_refl).
Defined.

(** C7, as stated, fails: with an empty cache, the reply to a
    put_ows_cache request is stored in the response cache, and the same
    request submitted again is answered from it, the database not being
    called a second time. *)
Lemma C7_counterexample :
  option_map proc (dispatch Sim.put_request) = Some "mas_put_ows_cache" /\
  existsb is_cache_set
    (trace_of (Sim.handler Sim.Get Sim.Set_ Sim.empty_cache Sim.put_request)) = true /\
  trace_of
    (Sim.handler Sim.Get Sim.Set_
       (world_of (Sim.handler Sim.Get Sim.Set_ Sim.empty_cache Sim.put_request))
       Sim.put_request)
    = [CacheGet (fingerprint Sim.put_request)] /\
  length
    (db (world_of
           (Sim.handler Sim.Get Sim.Set_
              (world_of (Sim.handler Sim.Get Sim.Set_ Sim.empty_cache Sim.put_request))
              Sim.put_request))) = 1%nat.
Proof. vm_compute. repeat split; reflexivity. Qed.

Lemma C7_witness :
  mc Sim.empty_cache = Some ∅ /\
  selected Sim.put_request = Some put_ows_cache_op /\
  (flagName put_ows_cache_op = "put_ows_cache" \/
   flagName put_ows_cache_op = "get_ows_cache") /\
  (forall cached,
     Sim.Get ∅ (fingerprint Sim.put_request) = memcache.Found cached ->
     http.body (response_of (Sim.handler Sim.Get Sim.Set_ Sim.empty_cache Sim.put_request))
       = memcache.Value cached /\
     trace_of (Sim.handler Sim.Get Sim.Set_ Sim.empty_cache Sim.put_request)
       = [CacheGet (fingerprint Sim.put_request)]) /\
  (forall err payload d',
     Sim.Get ∅ (fingerprint Sim.put_request) = memcache.GetError err ->
     Sim.QueryRow (db Sim.empty_cache) (statement put_ows_cache_op Sim.put_request)
       = (Payload payload, d') ->
     http.body (response_of (Sim.handler Sim.Get Sim.Set_ Sim.empty_cache Sim.put_request))
       = payload /\
     trace_of (Sim.handler Sim.Get Sim.Set_ Sim.empty_cache Sim.put_request) =
       [ CacheGet (fingerprint Sim.put_request);
         Query (statement put_ows_cache_op Sim.put_request);
         CacheSet {| memcache.Key := fingerprint Sim.put_request;
                     memcache.Value := payload |} ]).
Proof.
  assert (Hsel : selected Sim.put_request = Some put_ows_cache_op)
    by (vm_compute; reflexivity).
  split; [reflexivity |]. split; [exact Hsel |]. split; [left; reflexivity |].
  exact (C7_cache_mutating_operations_are_cached Sim.QueryRow Sim.Get Sim.Set_
           Sim.isPrintTable Sim.empty_cache Sim.put_request ∅ put_ows_cache_op
           eq_refl Hsel (or_introl eq_refl)).
Defined.

Lemma C9_witness :
  mc Sim.warm_cache = Some {[ fingerprint Sim.timestamps_request := Sim.stale ]} /\
  Sim.Get {[ fingerprint Sim.timestamps_request := Sim.stale ]}
    (fingerprint Sim.timestamps_request)
    = memcache.Found {| memcache.Key := fingerprint Sim.timestamps_request;
                        memcache.Value := Sim.stale |} /\
  http.body (response_of (Sim.handler Sim.Get Sim.Set_ Sim.warm_cache Sim.timestamps_request))
    = Sim.stale /\
  http.StatusCode
    (response_of (Sim.handler Sim.Get Sim.Set_ Sim.warm_cache Sim.timestamps_request))
    = 200%Z /\
  world_of (Sim.handler Sim.Get Sim.Set_ Sim.warm_cache Sim.timestamps_request)
    = Sim.warm_cache /\
  trace_of (Sim.handler Sim.Get Sim.Set_ Sim.warm_cache Sim.timestamps_request)
    = [CacheGet (fingerprint Sim.timestamps_request)].
Proof.
  assert (Hget : Sim.Get {[ fingerprint Sim.timestamps_request := Sim.stale ]}
                   (fingerprint Sim.timestamps_request)
                 = memcache.Found {| memcache.Key := fingerprint Sim.timestamps_request;
                                     memcache.Value := Sim.stale |}).
  { unfold Sim.Get. rewrite lookup_singleton_eq. reflexivity. }
  split; [reflexivity |]. split; [exact Hget |].
  exact (C9_cache_hit_returns_cached Sim.QueryRow Sim.Get Sim.Set_ Sim.isPrintTable
           Sim.warm_cache Sim.timestamps_request _ _ eq_refl Hget).
Defined.

Lemma C10_witness :
  absent Sim.timestamps_bare "namespace" /\
  supplied_empty Sim.timestamps_empty_namespace "namespace" /\
  exists c,
    dispatch Sim.timestamps_bare = Some c /\
    dispatch Sim.timestamps_empty_namespace = Some c /\
    actuals c !! 3%nat = Some (Null text_array) /\
    forall any c', dispatch any = Some c' ->
      Forall (fun a => empty_value a = false) (actuals c').
Proof.
  assert (Habsent : absent Sim.timestamps_bare "namespace")
    by (vm_compute; reflexivity).
  assert (Hempty : supplied_empty Sim.timestamps_empty_namespace "namespace")
    by (exists []; vm_compute; reflexivity).
  split; [exact Habsent |]. split; [exact Hempty |].
  apply (C10_absent_is_supplied_empty Sim.timestamps_bare
           Sim.timestamps_empty_namespace timestamps_op 3 "namespace" text_array).
  - vm_compute. reflexivity.
  - reflexivity.
  - exact Habsent.
  - exact Hempty.
  - reflexivity.
  - intros flag Hin. cbn in Hin.
    repeat (destruct Hin as [<- | Hin]; [vm_compute; reflexivity |]). destruct Hin.
  - intros other Hne. unfold FormValue, Sim.timestamps_empty_namespace, Sim.GET.
    cbn [Form list_to_map foldr uncurry fst snd].
    rewrite lookup_insert_ne by congruence. reflexivity.
Defined.

(** C4: a request with no query string, the cache not configured, is
    answered with status 400 and a JSON object whose message is fixed,
    and the database is not queried; the message names the first three
    flags of the table and none of the other five. *)
Theorem C4_unknown_operation_names_three_flags :
  dispatch Sim.no_flag_request = None /\
  http.StatusCode
    (response_of (Sim.handler Sim.Get Sim.Set_ Sim.no_cache Sim.no_flag_request))
    = 400%Z /\
  trace_of (Sim.handler Sim.Get Sim.Set_ Sim.no_cache Sim.no_flag_request) = [] /\
  http.body (response_of (Sim.handler Sim.Get Sim.Set_ Sim.no_cache Sim.no_flag_request))
    = "{ " ++ dq ++ "error" ++ dq ++ ": " ++ dq ++ unknown_operation ++ dq ++ " }"
        ++ newline /\
  json.error_object
    (http.body (response_of (Sim.handler Sim.Get Sim.Set_ Sim.no_cache Sim.no_flag_request)))
    = true /\
  map (fun op => contains ("?" ++ flagName op) unknown_operation) operation_table
    = [true; true; true; false; false; false; false; false].
Proof. vm_compute. repeat split; reflexivity. Qed.

(** C8: a request whose integer parameter is the bell character makes
    the database fail with an error text that quotes it. The handler
    queries once and replies with status 400, and the body holds the
    text as [%q] writes it: the bell as a backslash and the letter a,
    which is no escape of JSON, so the body is not a JSON object. For an
    error text of letters the body is one. *)
Theorem C8_error_text_is_go_quoted :
  List.filter is_query
    (trace_of (Sim.handler Sim.Get Sim.Set_ Sim.no_cache Sim.bell_request))
    = [Query (mas_intersects Sim.bell_request)] /\
  Sim.QueryRow [] (mas_intersects Sim.bell_request)
    = (ScanError ("pq: invalid input syntax for integer: " ++ dq ++ Sim.bell ++ dq), []) /\
  http.StatusCode
    (response_of (Sim.handler Sim.Get Sim.Set_ Sim.no_cache Sim.bell_request))
    = 400%Z /\
  http.body (response_of (Sim.handler Sim.Get Sim.Set_ Sim.no_cache Sim.bell_request))
    = "{ " ++ dq ++ "error" ++ dq ++ ": " ++ dq
        ++ "pq: invalid input syntax for integer: "
        ++ String backslash dq ++ String backslash "a" ++ String backslash dq
        ++ dq ++ " }" ++ newline /\
  json.error_object
    (http.body (response_of (Sim.handler Sim.Get Sim.Set_ Sim.no_cache Sim.bell_request)))
    = false /\
  json.error_object (error_text Sim.isPrintTable "sql: no rows in result set" ++ newline)
    = true.
Proof. vm_compute. repeat split; reflexivity. Qed.

(** *** Every reply of the handler *)

Section Replies.

Context {DB MC : Type}.
Variable QueryRow : DB -> call -> scanned * DB.
Variable mc_Get : MC -> string -> memcache.got.
Variable mc_Set : MC -> memcache.Item -> option string * MC.
Variable isPrintTable : Z -> bool.

Local Abbreviation run := (handler QueryRow mc_Get mc_Set isPrintTable).
Local Abbreviation silent := (unanswered mc_Get).

Lemma run_ending w request :
  ending QueryRow mc_Get mc_Set isPrintTable w request (run w request).
Proof.
  unfold handler. fold json_header.
  destruct (mc w) as [client |] eqn:Hmc.
  - destruct (mc_Get client (fingerprint request)) as [cached | e] eqn:Hget.
    + eapply from_cache; eassumption.
    + assert (Hsilent : silent w request)
        by (unfold unanswered; rewrite Hmc; eauto).
      unfold handler_uncached.
      destruct (dispatch request) as [c |] eqn:Hd.
      * destruct (QueryRow (db w) c) as [[payload | err] d] eqn:Hq; rewrite Hmc.
        -- pose proof (served_and_stored QueryRow mc_Get mc_Set isPrintTable
                         w request client c payload d Hmc Hsilent Hd Hq) as H.
           destruct (mc_Set client _) as [e' client']. exact H.
        -- pose proof (failed QueryRow mc_Get mc_Set isPrintTable
                         w request c err d Hsilent Hd Hq) as H.
           unfold looked_up in H. rewrite Hmc in H. exact H.
      * pose proof (unknown QueryRow mc_Get mc_Set isPrintTable
                      w request Hsilent Hd) as H.
        unfold looked_up in H. rewrite Hmc in H. exact H.
  - assert (Hsilent : silent w request) by (unfold unanswered; rewrite Hmc; exact I).
    unfold handler_uncached.
    destruct (dispatch request) as [c |] eqn:Hd.
    + destruct (QueryRow (db w) c) as [[payload | err] d] eqn:Hq; rewrite Hmc.
      * eapply served_uncached; eassumption.
      * pose proof (failed QueryRow mc_Get mc_Set isPrintTable
                      w request c err d Hsilent Hd Hq) as H.
        unfold looked_up in H. rewrite Hmc in H. exact H.
    + pose proof (unknown QueryRow mc_Get mc_Set isPrintTable
                    w request Hsilent Hd) as H.
      unfold looked_up in H. rewrite Hmc in H. exact H.
Qed.

Lemma written_payload data :
  http.StatusCode (http.Write data json_header) = 200%Z /\
  http.body (http.Write data json_header) = data /\
  http.header (http.Write data json_header) !! "Content-Type"
    = Some ["application/json"].
Proof. repeat split; reflexivity. Qed.

Lemma written_error err code :
  http.StatusCode (httpJSONError isPrintTable json_header err code) = code /\
  http.body (httpJSONError isPrintTable json_header err code)
    = error_text isPrintTable err ++ newline /\
  http.header (httpJSONError isPrintTable json_header err code) !! "Content-Type"
    = Some ["text/plain; charset=utf-8"] /\
  http.header (httpJSONError isPrintTable json_header err code)
    !! "X-Content-Type-Options" = Some ["nosniff"].
Proof. repeat split; reflexivity. Qed.

(** X1: when the cache does not answer and the query of the dispatched
    statement returns a row, the reply is that payload, byte for byte,
    with status 200 and the JSON content type, and the database is left
    as the query left it. *)
Theorem payload_is_reply w request c payload d :
  unanswered mc_Get w request ->
  dispatch request = Some c ->
  QueryRow (db w) c = (Payload payload, d) ->
  http.body (response_of (run w request)) = payload /\
  http.StatusCode (response_of (run w request)) = 200%Z /\
  http.header (response_of (run w request)) !! "Content-Type"
    = Some ["application/json"] /\
  db (world_of (run w request)) = d.
Proof.
  intros Hsilent Hd Hq.
  destruct (run_ending w request)
    as [client cached Hmc Hget | _ Hd' | c' err d' _ Hd' Hq'
        | c' payload' d' Hmc Hd' Hq' | client c' payload' d' Hmc _ Hd' Hq'].
  - unfold unanswered in Hsilent. rewrite Hmc in Hsilent.
    destruct Hsilent as [e He]. congruence.
  - congruence.
  - congruence.
  - assert (c' = c) by congruence. subst c'.
    assert (payload' = payload /\ d' = d) as [-> ->] by (split; congruence).
    unfold response_of, world_of. cbn [fst snd db].
    destruct (written_payload payload) as (? & ? & ?). auto.
  - assert (c' = c) by congruence. subst c'.
    assert (payload' = payload /\ d' = d) as [-> ->] by (split; congruence).
    unfold response_of, world_of. cbn [fst snd db].
    destruct (written_payload payload) as (? & ? & ?). auto.
Qed.

(** X2: every reply has status 200 or 400. A reply with status 200
    keeps the content type application/json the handler sets first; a
    reply with status 400 goes out through [http.Error], which replaces
    it: error replies are labelled text/plain, with nosniff, and their
    body ends with a newline. *)
Theorem content_type_follows_status w request :
  (http.StatusCode (response_of (run w request)) = 200%Z /\
   http.header (response_of (run w request)) !! "Content-Type"
     = Some ["application/json"]) \/
  (http.StatusCode (response_of (run w request)) = 400%Z /\
   http.header (response_of (run w request)) !! "Content-Type"
     = Some ["text/plain; charset=utf-8"] /\
   http.header (response_of (run w request)) !! "X-Content-Type-Options"
     = Some ["nosniff"] /\
   exists line, http.body (response_of (run w request)) = line ++ newline).
Proof.
  destruct (run_ending w request); unfold response_of; cbn [fst];
    first [ left; split; reflexivity
          | right; repeat split; try reflexivity; eexists; reflexivity ].
Qed.

(** X3: a reply with status 400 is never stored: the handler has
    issued no store, and the cache is as it was. *)
Theorem errors_are_not_stored w request :
  http.StatusCode (response_of (run w request)) = 400%Z ->
  List.filter is_cache_set (trace_of (run w request)) = [] /\
  mc (world_of (run w request)) = mc w.
Proof.
  destruct (run_ending w request) as [| | | | client c payload d Hmc];
    unfold response_of, world_of, trace_of; cbn [fst snd];
    intros Hstatus; try discriminate Hstatus.
  - split; [| reflexivity]. unfold looked_up. destruct (mc w); reflexivity.
  - split; [| reflexivity]. rewrite List.filter_app.
    unfold looked_up. destruct (mc w); reflexivity.
Qed.

(** X4: whatever the handler stores in the cache is the reply it has
    just sent: the key is the fingerprint of the request, the one it
    looked up before, the value is the body of the reply, the reply has
    status 200, and the store comes last, after the lookup and the one
    query, which is the dispatched statement. *)
Theorem stored_item_is_the_reply w request item :
  In (CacheSet item) (trace_of (run w request)) ->
  memcache.Key item = fingerprint request /\
  memcache.Value item = http.body (response_of (run w request)) /\
  http.StatusCode (response_of (run w request)) = 200%Z /\
  exists c, dispatch request = Some c /\
    trace_of (run w request) =
      [CacheGet (fingerprint request); Query c; CacheSet item].
Proof.
  destruct (run_ending w request) as [| | c err d | | client c payload d Hmc Hs Hd];
    unfold response_of, trace_of; cbn [fst snd]; intros Hin.
  - destruct Hin as [Hx | []]. discriminate Hx.
  - unfold looked_up in Hin. destruct (mc w); cbn in Hin;
      repeat (destruct Hin as [Hin | Hin]; try discriminate Hin); destruct Hin.
  - apply in_app_or in Hin as [Hin | [Hin | []]]; [| discriminate Hin].
    unfold looked_up in Hin. destruct (mc w); cbn in Hin;
      repeat (destruct Hin as [Hin | Hin]; try discriminate Hin); destruct Hin.
  - destruct Hin as [Hx | []]. discriminate Hx.
  - destruct Hin as [Hx | [Hx | [Hx | []]]]; try discriminate Hx.
    injection Hx as <-. cbn [memcache.Key memcache.Value].
    repeat split; try reflexivity. exists c. split; [exact Hd | reflexivity].
Qed.

(** X5: for one request the handler looks up at most once, queries at
    most once and stores at most once, in this order, and only these
    five sequences occur: nothing; one query; one lookup; a lookup and a
    query; a lookup, a query and a store. The lookup is of the
    fingerprint of the request, and a query is the statement the request
    dispatches to: the handler never repeats a query and never queries
    for a request without a flag. *)
Theorem handler_effects w request :
  (trace_of (run w request) = [] \/
   (exists c, trace_of (run w request) = [Query c]) \/
   trace_of (run w request) = [CacheGet (fingerprint request)] \/
   (exists c, trace_of (run w request) = [CacheGet (fingerprint request); Query c]) \/
   (exists c item,
      trace_of (run w request) =
        [CacheGet (fingerprint request); Query c; CacheSet item])) /\
  (forall c, In (Query c) (trace_of (run w request)) -> dispatch request = Some c) /\
  (is_Some (mc w) <-> In (CacheGet (fingerprint request)) (trace_of (run w request))).
Proof.
  destruct (run_ending w request)
    as [client cached Hmc | _ Hd | c err d _ Hd | c payload d Hmc Hd
        | client c payload d Hmc _ Hd];
    unfold trace_of, looked_up; cbn [snd]; try rewrite Hmc;
    try (destruct (mc w) as [client |] eqn:Hmc); cbn [app].
  all: split; [| split].
  all: try (intros c0 Hin; cbn in Hin;
            repeat (destruct Hin as [Hin | Hin]; try discriminate Hin);
            try contradiction; congruence).
  all: try (split; [intros _; cbn; tauto | intros _; eauto]).
  all: try (split; [intros [x Hx]; discriminate Hx
                   | intros Hin; cbn in Hin;
                     repeat (destruct Hin as [Hin | Hin]; try discriminate Hin);
                     contradiction]).
  all: eauto 10.
Qed.

Lemma no_flag_no_dispatch request :
  dispatch request = None <->
  Forall (fun flag => has_key (URL_Query request) flag = false) recognized_flags.
Proof.
  unfold dispatch, recognized_flags. cbv zeta. split.
  - intros Hd.
    destruct (has_key (URL_Query request) "intersects") eqn:H1; [discriminate Hd |].
    destruct (has_key (URL_Query request) "timestamps") eqn:H2; [discriminate Hd |].
    destruct (has_key (URL_Query request) "extents") eqn:H3; [discriminate Hd |].
    destruct (has_key (URL_Query request) "list_root_gpath") eqn:H4;
      [discriminate Hd |].
    destruct (has_key (URL_Query request) "list_sub_gpath") eqn:H5;
      [discriminate Hd |].
    destruct (has_key (URL_Query request) "generate_layers") eqn:H6;
      [discriminate Hd |].
    destruct (has_key (URL_Query request) "put_ows_cache") eqn:H7;
      [discriminate Hd |].
    destruct (has_key (URL_Query request) "get_ows_cache") eqn:H8;
      [discriminate Hd |].
    repeat (constructor; [assumption |]). constructor.
  - intros Hnone. repeat (apply List.Forall_cons_iff in Hnone as [-> Hnone]).
    reflexivity.
Qed.

Lemma unknown_operation_is_plain : plain_text unknown_operation = true.
Proof. vm_compute. reflexivity. Qed.

(** X6: a request without any of the eight flags, when the cache does
    not answer it, gets status 400 and the fixed message as a JSON
    object, whatever else it holds; the handler queries nothing, stores
    nothing and leaves the database and the cache as they are. *)
Theorem no_flag_is_rejected w request :
  unanswered mc_Get w request ->
  Forall (fun flag => has_key (URL_Query request) flag = false) recognized_flags ->
  http.StatusCode (response_of (run w request)) = 400%Z /\
  http.body (response_of (run w request))
    = error_prefix ++ unknown_operation ++ dq ++ " }" ++ newline /\
  json.error_object (http.body (response_of (run w request))) = true /\
  world_of (run w request) = w /\
  trace_of (run w request) = looked_up w request.
Proof.
  intros Hsilent Hnone. apply no_flag_no_dispatch in Hnone.
  destruct (run_ending w request)
    as [client cached Hmc Hget | _ _ | c err d _ Hd | c payload d _ Hd
        | client c payload d _ _ Hd]; try congruence.
  - unfold unanswered in Hsilent. rewrite Hmc in Hsilent.
    destruct Hsilent as [e He]. congruence.
  - unfold response_of, world_of, trace_of. cbn [fst snd].
    destruct (written_error unknown_operation 400) as (_ & -> & _).
    destruct (plain_error_is_json isPrintTable unknown_operation
                unknown_operation_is_plain) as [-> Hjson].
    rewrite error_object_prefix, string_tail_plain
      by exact unknown_operation_is_plain.
    repeat split; reflexivity.
Qed.

(** X7: when the cache does not answer and the query of the dispatched
    statement fails, the handler replies with status 400 and the error
    text in the error format, followed by a newline. It has sent that one
    query and no other, stores nothing, and leaves the cache as it was
    and the database as the failed query left it. *)
Theorem query_error_is_reported w request c err d :
  unanswered mc_Get w request ->
  dispatch request = Some c ->
  QueryRow (db w) c = (ScanError err, d) ->
  http.StatusCode (response_of (run w request)) = 400%Z /\
  http.body (response_of (run w request))
    = "{ " ++ dq ++ "error" ++ dq ++ ": " ++ strconv.Quote isPrintTable err
        ++ " }" ++ newline /\
  trace_of (run w request) = (looked_up w request ++ [Query c])%list /\
  db (world_of (run w request)) = d /\
  mc (world_of (run w request)) = mc w.
Proof.
  intros Hsilent Hd Hq.
  destruct (run_ending w request)
    as [client cached Hmc Hget | _ Hd' | c' err' d' _ Hd' Hq' | c' payload d' _ Hd' Hq'
        | client c' payload d' _ _ Hd' Hq']; try congruence.
  - unfold unanswered in Hsilent. rewrite Hmc in Hsilent.
    destruct Hsilent as [e He]. congruence.
  - assert (c' = c) by congruence. subst c'.
    assert (err' = err /\ d' = d) as [-> ->] by (split; congruence).
    unfold response_of, world_of, trace_of. cbn [fst snd db mc].
    destruct (written_error err 400) as (-> & -> & _).
    unfold error_text. rewrite !append_assoc. repeat split; reflexivity.
Qed.

(** X8: the cache key is made from the request URI alone. With the
    cache enabled, once a request got a successful reply that is found
    in the cache, any request with the same request URI, whatever its
    path, query and form values (a body is no part of the URI), gets
    that reply from the cache: the handler does not dispatch or query
    for it. *)
Theorem same_uri_same_reply w first second client :
  mc w = Some client ->
  URL_RequestURI second = URL_RequestURI first ->
  http.StatusCode (response_of (run w first)) = 200%Z ->
  (forall client' item,
     mc (world_of (run w first)) = Some client' ->
     In (CacheSet item) (trace_of (run w first)) ->
     exists kept, mc_Get client' (memcache.Key item) = memcache.Found kept /\
                  memcache.Value kept = memcache.Value item) ->
  response_of (run (world_of (run w first)) second) = response_of (run w first) /\
  trace_of (run (world_of (run w first)) second) = [CacheGet (fingerprint first)].
Proof.
  intros Hmc Huri.
  assert (Hfp : fingerprint second = fingerprint first)
    by (unfold fingerprint; rewrite Huri; reflexivity).
  destruct (run_ending w first)
    as [client0 cached Hmc0 Hget | | | c payload d Hmc0
        | client0 c payload d Hmc0 _ Hd Hq];
    unfold response_of, world_of, trace_of; cbn [fst snd];
    intros Hok Hkept; try discriminate Hok; try congruence.
  - unfold handler. rewrite Hmc0, Hfp, Hget. split; reflexivity.
  - destruct (Hkept _ {| memcache.Key := fingerprint first;
                         memcache.Value := payload |} eq_refl)
      as (kept & Hfound & Hvalue).
    { right. right. left. reflexivity. }
    cbn [memcache.Key memcache.Value] in Hfound, Hvalue.
    unfold handler. cbn [mc]. rewrite Hfp, Hfound, Hvalue. split; reflexivity.
Qed.

End Replies.

(** *** The error format, for texts with quotes and line breaks *)

Lemma json_safe_char t c rest :
  json_safe c = true ->
  (byte_of c <? utf8.RuneSelf)%Z = true /\
  (byte_of c =? utf8.RuneError)%Z = false /\
  json.string_tail json.Plain (strconv.escapedRune t (byte_of c) ++ rest)
    = json.string_tail json.Plain rest.
Proof.
  destruct c as [[] [] [] [] [] [] [] []]; intros H; vm_compute in H;
    try discriminate H; repeat split; reflexivity.
Qed.

Lemma quoted_json_safe t s rest :
  json_safe_text s = true ->
  json.string_tail json.Plain (strconv.quoted t 0 s ++ dq ++ rest) = Some rest.
Proof.
  unfold json_safe_text. induction s as [| c s IH].
  - intros _. reflexivity.
  - cbn [list_ascii_of_string forallb]. intros [Hc Hs]%andb_prop.
    destruct (json_safe_char t c (strconv.quoted t 0 s ++ dq ++ rest) Hc)
      as (Hlt & Hne & Hesc).
    cbn [strconv.quoted]. unfold utf8.DecodeRune, bytes_of.
    cbn [list_ascii_of_string map]. rewrite Hlt, Hne.
    change (json.string_tail json.Plain
              ((strconv.escapedRune t (byte_of c) ++ strconv.quoted t 0 s)
               ++ dq ++ rest) = Some rest).
    rewrite append_assoc, Hesc. apply IH, Hs.
Qed.

(** X9: [httpJSONError] on a reply that is not yet begun sends the
    status it is given and one line; for an error text of printable
    ASCII, double quotes and backslashes included, and of tabs, line
    breaks, backspaces and form feeds, the line is a JSON object with the
    member error, and for a text without quotes and backslashes it holds
    the text as it is. *)
Theorem httpJSONError_writes_json t response err code :
  http.status response = None ->
  http.body response = "" ->
  json_safe_text err = true ->
  http.StatusCode (httpJSONError t response err code) = code /\
  json.error_object (http.body (httpJSONError t response err code)) = true /\
  (plain_text err = true ->
   http.body (httpJSONError t response err code)
     = error_prefix ++ err ++ dq ++ " }" ++ newline).
Proof.
  intros Hstatus Hbody Hsafe.
  assert (Hb : http.body (httpJSONError t response err code)
               = error_text t err ++ newline).
  { unfold httpJSONError, http.Error, http.Write, http.WriteHeader.
    cbn. rewrite Hstatus. cbn. rewrite Hbody. reflexivity. }
  split; [| split].
  - unfold httpJSONError, http.Error, http.Write, http.WriteHeader, http.StatusCode.
    cbn. rewrite Hstatus. reflexivity.
  - rewrite Hb. unfold error_text, strconv.Quote.
    replace (("{ " ++ dq ++ "error" ++ dq ++ ": "
              ++ (dq ++ strconv.quoted t 0 err ++ dq) ++ " }") ++ newline)
      with (error_prefix ++ strconv.quoted t 0 err ++ dq ++ " }" ++ newline)
      by (unfold error_prefix; rewrite !append_assoc; reflexivity).
    rewrite error_object_prefix, quoted_json_safe by exact Hsafe. reflexivity.
  - intros Hplain. rewrite Hb. apply plain_error_is_json, Hplain.
Qed.

(** *** The arguments of a statement *)

(** X10: every operation but list_root_gpath passes the URL path as
    its first argument, through [nullif] as the form values: an empty
    path is passed as NULL, any other as that text. list_root_gpath
    takes no argument. The stored function called is the one of the
    selected operation. *)
Theorem path_is_first_argument request op :
  selected request = Some op ->
  exists c,
    dispatch request = Some c /\ proc c = callTemplate op /\
    (flagName op = "list_root_gpath" -> actuals c = []) /\
    (flagName op <> "list_root_gpath" ->
       (URL_Path request = "" -> actuals c !! 0%nat = Some (Null text)) /\
       (URL_Path request <> "" ->
          actuals c !! 0%nat = Some (Val text (URL_Path request)))).
Proof.
  intros Hsel. destruct (selected_in_table _ _ Hsel) as [Hin _].
  rewrite dispatch_selected, Hsel. cbn [option_map]. eexists.
  split; [reflexivity |].
  rewrite table_statement by exact Hin. cbn [proc actuals].
  split; [reflexivity |].
  assert (Hpath : coerce request path_text =
                  if decide (URL_Path request = "") then Null text
                  else Val text (URL_Path request)).
  { unfold coerce, nullif_cast, raw_value. cbn [ty src path_text].
    rewrite nullif_empty. case_decide; reflexivity. }
  unfold operation_table in Hin. cbn [In] in Hin.
  repeat (destruct Hin as [<- | Hin];
          [ split;
            [ intros Hflag; first [discriminate Hflag | reflexivity]
            | intros Hflag;
              first [ exfalso; apply Hflag; reflexivity
                    | cbn -[coerce path_text]; rewrite Hpath;
                      split; intros Hp; case_decide; congruence ] ]
          | ]).
  destruct Hin.
Qed.

Lemma selected_ext request request' :
  (forall flag, In flag recognized_flags ->
     has_key (URL_Query request') flag = has_key (URL_Query request) flag) ->
  selected request' = selected request.
Proof.
  intros Hflags. unfold selected, operation_table. cbn [find flagName
    intersects_op timestamps_op extents_op list_root_gpath_op list_sub_gpath_op
    generate_layers_op put_ows_cache_op get_ows_cache_op].
  rewrite !Hflags by (cbn; tauto). reflexivity.
Qed.

(** X11: the statement a request dispatches to depends on the path, on
    which of the eight flags are keys of the query, and on the first
    value of each form parameter of the selected operation, and on
    nothing else: the values given to the flags, further values of a
    repeated parameter and parameters the operation does not take are
    ignored. *)
Theorem dispatch_reads_only_its_parameters request request' op :
  selected request = Some op ->
  URL_Path request' = URL_Path request ->
  (forall flag, In flag recognized_flags ->
     has_key (URL_Query request') flag = has_key (URL_Query request) flag) ->
  (forall name t, In (form name t) (parameters op) ->
     FormValue request' name = FormValue request name) ->
  dispatch request' = dispatch request.
Proof.
  intros Hsel Hpath Hflags Hform.
  destruct (selected_in_table _ _ Hsel) as [Hin _].
  rewrite !dispatch_selected, (selected_ext _ _ Hflags), Hsel. cbn [option_map].
  rewrite !table_statement by exact Hin. do 2 f_equal.
  apply map_ext_in. intros [[| name] t] Hp; unfold coerce, raw_value; cbn [src ty].
  - rewrite Hpath. reflexivity.
  - rewrite (Hform name t Hp). reflexivity.
Qed.

(** *** The cache key *)

Lemma length_string_of bs : String.length (string_of bs) = length bs.
Proof.
  unfold string_of. induction bs as [| b bs IH]; [reflexivity |].
  cbn. rewrite IH. reflexivity.
Qed.

Lemma length_le_bytes n x : length (md5.le_bytes n x) = n.
Proof. unfold md5.le_bytes. rewrite length_map, length_seq. reflexivity. Qed.

Lemma length_md5_Sum data : String.length (md5.Sum data) = 16%nat.
Proof.
  unfold md5.Sum. destruct (md5.blocks _ _ _) as [[[a b] c] d].
  rewrite length_string_of, !length_app, !length_le_bytes. reflexivity.
Qed.

Lemma hex_of_byte c :
  lower_hex (hex.digit (Z.shiftr (byte_of c) 4)) = true /\
  lower_hex (hex.digit (Z.land (byte_of c) 15)) = true.
Proof. destruct c as [[] [] [] [] [] [] [] []]; split; reflexivity. Qed.

Lemma hex_EncodeToString_spec src :
  String.length (hex.EncodeToString src) = (2 * String.length src)%nat /\
  forallb lower_hex (list_ascii_of_string (hex.EncodeToString src)) = true.
Proof.
  induction src as [| c src [IHlen IHhex]]; [split; reflexivity |].
  cbn [hex.EncodeToString String.length list_ascii_of_string forallb].
  destruct (hex_of_byte c) as [-> ->]. rewrite IHlen, IHhex.
  split; [| reflexivity]. rewrite !Nat.mul_succ_r, Nat.add_comm. reflexivity.
Qed.

(** X12: the cache key of every request, whatever the length and the
    bytes of its URI, is 32 characters long and made of the digits 0 to
    9 and the letters a to f: it has no space and no control character
    and is shorter than the 250 bytes memcache takes for a key. *)
Theorem fingerprint_is_a_memcache_key request :
  String.length (fingerprint request) = 32%nat /\
  forallb lower_hex (list_ascii_of_string (fingerprint request)) = true.
Proof.
  unfold fingerprint.
  destruct (hex_EncodeToString_spec (md5.Sum (URL_RequestURI request))) as [Hlen Hhex].
  rewrite Hlen, length_md5_Sum. split; [reflexivity | exact Hhex].
Qed.

(** *** Start-up *)

Section Startup.

Context {DB MC : Type}.
Variable sql_Open : string -> DB + string.
Variable select_true : DB -> scanned * DB.
Variable memcache_New : string -> MC.
Variable QueryRow : DB -> call -> scanned * DB.
Variable mc_Get : MC -> string -> memcache.got.
Variable mc_Set : MC -> memcache.Item -> option string * MC.
Variable isPrintTable : Z -> bool.

Local Abbreviation main := (startup.main sql_Open select_true memcache_New).
Local Abbreviation run := (handler QueryRow mc_Get mc_Set isPrintTable).

(** X13: [main] listens only on a database it has tested. When
    [sql.Open] or the test query fails it panics with that error and
    never calls [ListenAndServe]; the handle is closed by the deferred
    call only when it was opened. When it listens, the test query has
    returned a row on the opened handle, the pool limits were set from
    the flags, and listening is the last thing it does, on the port
    flag. *)
Theorem main_tests_the_database f :
  (forall err steps,
     main f = (startup.Panicked err, steps) ->
     ~ In (startup.ListenAndServe (":" ++ startup.decimal (startup.httpPort f))) steps /\
     (sql_Open (startup.dbinfo f) = inr err /\ ~ In startup.Close steps \/
      exists d, sql_Open (startup.dbinfo f) = inl d /\
                fst (select_true d) = ScanError err /\ In startup.Close steps)) /\
  (forall addr w steps,
     main f = (startup.Serving addr w, steps) ->
     addr = ":" ++ startup.decimal (startup.httpPort f) /\
     (exists d row, sql_Open (startup.dbinfo f) = inl d /\
                    select_true d = (Payload row, db w)) /\
     exists before,
       steps = (before ++ [startup.ListenAndServe addr])%list /\
       In (startup.SetMaxIdleConns (startup.dbPool f)) before /\
       In (startup.SetMaxOpenConns (startup.dbLimit f)) before /\
       ~ In startup.Close steps).
Proof.
  unfold startup.main.
  destruct (sql_Open (startup.dbinfo f)) as [d | e] eqn:Hopen.
  - destruct (select_true d) as [[row | e] d'] eqn:Htest.
    + destruct (String.eqb (startup.mcURI f) "") eqn:Huri; split.
      * intros err steps [=].
      * intros addr w steps [= <- <- <-]. split; [reflexivity |].
        split; [eauto |]. eexists [_; _; _; _]. split; [reflexivity |].
        cbn. split; [tauto |]. split; [tauto |].
        intros [H | [H | [H | [H | [H | []]]]]]; discriminate H.
      * intros err steps [=].
      * intros addr w steps [= <- <- <-]. split; [reflexivity |].
        split; [eauto |]. eexists [_; _; _; _; _]. split; [reflexivity |].
        cbn. split; [tauto |]. split; [tauto |].
        intros [H | [H | [H | [H | [H | [H | []]]]]]]; discriminate H.
    + split.
      * intros err steps [= <- <-]. split.
        -- intros [H | [H | [H | []]]]; discriminate H.
        -- right. exists d. rewrite Htest. cbn. tauto.
      * intros addr w steps [=].
  - split.
    + intros err steps [= <- <-]. split.
      * intros [H | []]. discriminate H.
      * left. split; [reflexivity |]. intros [H | []]. discriminate H.
    + intros addr w steps [=].
Qed.

(** X14: the memcache flag decides for good whether the handler uses a
    cache. Started without it, [main] leaves [mc] nil, and the handler
    then does nothing but query the database, for every request, and
    leaves [mc] nil; started with it, the handler begins every request
    by looking up the request's fingerprint and keeps a cache client. *)
Theorem memcache_flag_decides f addr w steps request :
  main f = (startup.Serving addr w, steps) ->
  (startup.mcURI f = "" ->
     forallb is_query (trace_of (run w request)) = true /\
     mc (world_of (run w request)) = None) /\
  (startup.mcURI f <> "" ->
     In (startup.New (startup.mcURI f)) steps /\
     (exists rest, trace_of (run w request) = CacheGet (fingerprint request) :: rest) /\
     is_Some (mc (world_of (run w request)))).
Proof.
  unfold startup.main.
  destruct (sql_Open (startup.dbinfo f)) as [d | e]; [| intros [=]].
  destruct (select_true d) as [[row | e] d']; [| intros [=]].
  destruct (String.eqb_spec (startup.mcURI f) "") as [Huri | Huri];
    intros [= <- <- <-]; (split; [intros Hflag | intros Hflag]);
    try contradiction.
  - destruct (run_ending QueryRow mc_Get mc_Set isPrintTable
                {| db := d'; mc := None |} request)
      as [client cached Hmc | | | | client c payload d0 Hmc];
      try discriminate Hmc;
      unfold trace_of, world_of, looked_up; cbn [fst snd mc];
      split; reflexivity.
  - split; [cbn; tauto |].
    destruct (run_ending QueryRow mc_Get mc_Set isPrintTable
                {| db := d'; mc := Some (memcache_New (startup.mcURI f)) |} request)
      as [client cached Hmc | | | c payload d0 Hmc | client c payload d0 Hmc];
      try discriminate Hmc;
      unfold trace_of, world_of, looked_up; cbn [fst snd mc app];
      split; eauto.
Qed.

End Startup.

(** *** The further properties on the example requests *)

Lemma payload_is_reply_witness :
  unanswered Sim.Get Sim.no_cache Sim.timestamps_request /\
  dispatch Sim.timestamps_request = Some (mas_timestamps Sim.timestamps_request) /\
  Sim.QueryRow (db Sim.no_cache) (mas_timestamps Sim.timestamps_request)
    = (Payload (Sim.names [mas_timestamps Sim.timestamps_request]),
       [mas_timestamps Sim.timestamps_request]) /\
  http.body (response_of (Sim.handler Sim.Get Sim.Set_ Sim.no_cache Sim.timestamps_request))
    = Sim.names [mas_timestamps Sim.timestamps_request] /\
  http.StatusCode
    (response_of (Sim.handler Sim.Get Sim.Set_ Sim.no_cache Sim.timestamps_request))
    = 200%Z /\
  http.header
    (response_of (Sim.handler Sim.Get Sim.Set_ Sim.no_cache Sim.timestamps_request))
    !! "Content-Type" = Some ["application/json"] /\
  db (world_of (Sim.handler Sim.Get Sim.Set_ Sim.no_cache Sim.timestamps_request))
    = [mas_timestamps Sim.timestamps_request].
Proof.
  assert (H1 : unanswered Sim.Get Sim.no_cache Sim.timestamps_request) by exact I.
  assert (H2 : dispatch Sim.timestamps_request
               = Some (mas_timestamps Sim.timestamps_request))
    by (vm_compute; reflexivity).
  assert (H3 : Sim.QueryRow (db Sim.no_cache) (mas_timestamps Sim.timestamps_request)
               = (Payload (Sim.names [mas_timestamps Sim.timestamps_request]),
                  [mas_timestamps Sim.timestamps_request]))
    by (vm_compute; reflexivity).
  split; [exact H1 |]. split; [exact H2 |]. split; [exact H3 |].
  exact (payload_is_reply Sim.QueryRow Sim.Get Sim.Set_ Sim.isPrintTable
           Sim.no_cache Sim.timestamps_request _ _ _ H1 H2 H3).
Defined.

Lemma errors_are_not_stored_witness :
  http.StatusCode
    (response_of (Sim.handler Sim.Get Sim.Set_ Sim.empty_cache
                    Fixtures.bad_integer_request)) = 400%Z /\
  List.filter is_cache_set
    (trace_of (Sim.handler Sim.Get Sim.Set_ Sim.empty_cache
                 Fixtures.bad_integer_request)) = [] /\
  mc (world_of (Sim.handler Sim.Get Sim.Set_ Sim.empty_cache
                  Fixtures.bad_integer_request)) = mc Sim.empty_cache.
Proof.
  assert (H : http.StatusCode
                (response_of (Sim.handler Sim.Get Sim.Set_ Sim.empty_cache
                                Fixtures.bad_integer_request)) = 400%Z)
    by (vm_compute; reflexivity).
  split; [exact H |].
  exact (errors_are_not_stored Sim.QueryRow Sim.Get Sim.Set_ Sim.isPrintTable
           Sim.empty_cache Fixtures.bad_integer_request H).
Defined.

Lemma stored_item_is_the_reply_witness :
  In (CacheSet Fixtures.stored_put)
     (trace_of (Sim.handler Sim.Get Sim.Set_ Sim.empty_cache Sim.put_request)) /\
  memcache.Key Fixtures.stored_put = fingerprint Sim.put_request /\
  memcache.Value Fixtures.stored_put
    = http.body (response_of (Sim.handler Sim.Get Sim.Set_ Sim.empty_cache Sim.put_request)) /\
  http.StatusCode
    (response_of (Sim.handler Sim.Get Sim.Set_ Sim.empty_cache Sim.put_request))
    = 200%Z /\
  exists c, dispatch Sim.put_request = Some c /\
    trace_of (Sim.handler Sim.Get Sim.Set_ Sim.empty_cache Sim.put_request) =
      [ CacheGet (fingerprint Sim.put_request); Query c;
        CacheSet Fixtures.stored_put ].
Proof.
  assert (H : In (CacheSet Fixtures.stored_put)
                (trace_of (Sim.handler Sim.Get Sim.Set_ Sim.empty_cache Sim.put_request)))
    by (vm_compute; right; right; left; reflexivity).
  split; [exact H |].
  exact (stored_item_is_the_reply Sim.QueryRow Sim.Get Sim.Set_ Sim.isPrintTable
           Sim.empty_cache Sim.put_request Fixtures.stored_put H).
Defined.

Lemma no_flag_is_rejected_witness :
  unanswered Sim.Get Sim.empty_cache Sim.no_flag_request /\
  Forall (fun flag => has_key (URL_Query Sim.no_flag_request) flag = false)
    recognized_flags /\
  http.StatusCode
    (response_of (Sim.handler Sim.Get Sim.Set_ Sim.empty_cache Sim.no_flag_request))
    = 400%Z /\
  http.body
    (response_of (Sim.handler Sim.Get Sim.Set_ Sim.empty_cache Sim.no_flag_request))
    = error_prefix ++ unknown_operation ++ dq ++ " }" ++ newline /\
  json.error_object
    (http.body
       (response_of (Sim.handler Sim.Get Sim.Set_ Sim.empty_cache Sim.no_flag_request)))
    = true /\
  world_of (Sim.handler Sim.Get Sim.Set_ Sim.empty_cache Sim.no_flag_request)
    = Sim.empty_cache /\
  trace_of (Sim.handler Sim.Get Sim.Set_ Sim.empty_cache Sim.no_flag_request)
    = looked_up Sim.empty_cache Sim.no_flag_request.
Proof.
  assert (H1 : unanswered Sim.Get Sim.empty_cache Sim.no_flag_request)
    by (eexists; vm_compute; reflexivity).
  assert (H2 : Forall (fun flag => has_key (URL_Query Sim.no_flag_request) flag = false)
                 recognized_flags)
    by (repeat (constructor; [vm_compute; reflexivity |]); constructor).
  split; [exact H1 |]. split; [exact H2 |].
  exact (no_flag_is_rejected Sim.QueryRow Sim.Get Sim.Set_ Sim.isPrintTable
           Sim.empty_cache Sim.no_flag_request H1 H2).
Defined.

Lemma query_error_is_reported_witness :
  unanswered Sim.Get Sim.empty_cache Fixtures.bad_integer_request /\
  dispatch Fixtures.bad_integer_request
    = Some (mas_intersects Fixtures.bad_integer_request) /\
  Sim.QueryRow (db Sim.empty_cache) (mas_intersects Fixtures.bad_integer_request)
    = (ScanError ("pq: invalid input syntax for integer: " ++ dq ++ "abc" ++ dq), []) /\
  http.StatusCode
    (response_of (Sim.handler Sim.Get Sim.Set_ Sim.empty_cache
                    Fixtures.bad_integer_request)) = 400%Z /\
  http.body
    (response_of (Sim.handler Sim.Get Sim.Set_ Sim.empty_cache
                    Fixtures.bad_integer_request))
    = "{ " ++ dq ++ "error" ++ dq ++ ": "
        ++ strconv.Quote Sim.isPrintTable
             ("pq: invalid input syntax for integer: " ++ dq ++ "abc" ++ dq)
        ++ " }" ++ newline /\
  trace_of (Sim.handler Sim.Get Sim.Set_ Sim.empty_cache Fixtures.bad_integer_request)
    = (looked_up Sim.empty_cache Fixtures.bad_integer_request
       ++ [Query (mas_intersects Fixtures.bad_integer_request)])%list /\
  db (world_of (Sim.handler Sim.Get Sim.Set_ Sim.empty_cache
                  Fixtures.bad_integer_request)) = [] /\
  mc (world_of (Sim.handler Sim.Get Sim.Set_ Sim.empty_cache
                  Fixtures.bad_integer_request)) = mc Sim.empty_cache.
Proof.
  assert (H1 : unanswered Sim.Get Sim.empty_cache Fixtures.bad_integer_request)
    by (eexists; vm_compute; reflexivity).
  assert (H2 : dispatch Fixtures.bad_integer_request
               = Some (mas_intersects Fixtures.bad_integer_request))
    by (vm_compute; reflexivity).
  assert (H3 : Sim.QueryRow (db Sim.empty_cache)
                 (mas_intersects Fixtures.bad_integer_request)
               = (ScanError ("pq: invalid input syntax for integer: "
                             ++ dq ++ "abc" ++ dq), []))
    by (vm_compute; reflexivity).
  split; [exact H1 |]. split; [exact H2 |]. split; [exact H3 |].
  exact (query_error_is_reported Sim.QueryRow Sim.Get Sim.Set_ Sim.isPrintTable
           Sim.empty_cache Fixtures.bad_integer_request _ _ _ H1 H2 H3).
Defined.

(** The memcache stand-in keeps what the handler stores in it. *)
Lemma sim_cache_keeps (w : @World (list call) (gmap string string)) request client' item :
  mc (world_of (Sim.handler Sim.Get Sim.Set_ w request)) = Some client' ->
  In (CacheSet item) (trace_of (Sim.handler Sim.Get Sim.Set_ w request)) ->
  exists kept, Sim.Get client' (memcache.Key item) = memcache.Found kept /\
               memcache.Value kept = memcache.Value item.
Proof.
  unfold Sim.handler.
  destruct (run_ending Sim.QueryRow Sim.Get Sim.Set_ Sim.isPrintTable w request)
    as [| | c err d | | client c payload d Hmc];
    unfold world_of, trace_of, looked_up; cbn [fst snd mc]; intros Hclient Hin.
  - destruct Hin as [Hx | []]. discriminate Hx.
  - destruct (mc w); cbn in Hin;
      repeat (destruct Hin as [Hin | Hin]; try discriminate Hin); destruct Hin.
  - apply in_app_or in Hin as [Hin | [Hin | []]]; [| discriminate Hin].
    destruct (mc w); cbn in Hin;
      repeat (destruct Hin as [Hin | Hin]; try discriminate Hin); destruct Hin.
  - discriminate Hclient.
  - injection Hclient as <-.
    destruct Hin as [Hx | [Hx | [Hx | []]]]; try discriminate Hx.
    injection Hx as <-. cbn [memcache.Key memcache.Value Sim.Set_ snd].
    eexists. split.
    + unfold Sim.Get. rewrite lookup_insert_eq. reflexivity.
    + reflexivity.
Qed.

Lemma same_uri_same_reply_witness :
  mc Sim.empty_cache = Some ∅ /\
  URL_RequestURI Fixtures.timestamps_with_body = URL_RequestURI Sim.timestamps_request /\
  http.StatusCode
    (response_of (Sim.handler Sim.Get Sim.Set_ Sim.empty_cache Sim.timestamps_request))
    = 200%Z /\
  response_of
    (Sim.handler Sim.Get Sim.Set_
       (world_of (Sim.handler Sim.Get Sim.Set_ Sim.empty_cache Sim.timestamps_request))
       Fixtures.timestamps_with_body)
    = response_of (Sim.handler Sim.Get Sim.Set_ Sim.empty_cache Sim.timestamps_request) /\
  trace_of
    (Sim.handler Sim.Get Sim.Set_
       (world_of (Sim.handler Sim.Get Sim.Set_ Sim.empty_cache Sim.timestamps_request))
       Fixtures.timestamps_with_body)
    = [CacheGet (fingerprint Sim.timestamps_request)].
Proof.
  split; [reflexivity |]. split; [reflexivity |]. split; [vm_compute; reflexivity |].
  apply (same_uri_same_reply Sim.QueryRow Sim.Get Sim.Set_ Sim.isPrintTable
           Sim.empty_cache Sim.timestamps_request Fixtures.timestamps_with_body ∅).
  - reflexivity.
  - reflexivity.
  - vm_compute. reflexivity.
  - apply sim_cache_keeps.
Defined.

Lemma httpJSONError_writes_json_witness :
  http.status json_header = None /\
  http.body json_header = "" /\
  json_safe_text ("pq: invalid input syntax for integer: " ++ dq ++ "abc" ++ dq)
    = true /\
  http.StatusCode
    (httpJSONError Sim.isPrintTable json_header
       ("pq: invalid input syntax for integer: " ++ dq ++ "abc" ++ dq) 400) = 400%Z /\
  json.error_object
    (http.body
       (httpJSONError Sim.isPrintTable json_header
          ("pq: invalid input syntax for integer: " ++ dq ++ "abc" ++ dq) 400))
    = true /\
  (plain_text ("pq: invalid input syntax for integer: " ++ dq ++ "abc" ++ dq) = true ->
   http.body
     (httpJSONError Sim.isPrintTable json_header
        ("pq: invalid input syntax for integer: " ++ dq ++ "abc" ++ dq) 400)
     = error_prefix
         ++ ("pq: invalid input syntax for integer: " ++ dq ++ "abc" ++ dq)
         ++ dq ++ " }" ++ newline).
Proof.
  assert (Hsafe : json_safe_text
                    ("pq: invalid input syntax for integer: " ++ dq ++ "abc" ++ dq)
                  = true) by (vm_compute; reflexivity).
  split; [reflexivity |]. split; [reflexivity |]. split; [exact Hsafe |].
  exact (httpJSONError_writes_json Sim.isPrintTable json_header _ 400
           eq_refl eq_refl Hsafe).
Defined.

Lemma path_is_first_argument_witness :
  selected Fixtures.empty_path_request = Some list_sub_gpath_op /\
  exists c,
    dispatch Fixtures.empty_path_request = Some c /\
    proc c = callTemplate list_sub_gpath_op /\
    (flagName list_sub_gpath_op = "list_root_gpath" -> actuals c = []) /\
    (flagName list_sub_gpath_op <> "list_root_gpath" ->
       (URL_Path Fixtures.empty_path_request = "" ->
          actuals c !! 0%nat = Some (Null text)) /\
       (URL_Path Fixtures.empty_path_request <> "" ->
          actuals c !! 0%nat = Some (Val text (URL_Path Fixtures.empty_path_request)))).
Proof.
  assert (Hsel : selected Fixtures.empty_path_request = Some list_sub_gpath_op)
    by (vm_compute; reflexivity).
  split; [exact Hsel |].
  exact (path_is_first_argument Fixtures.empty_path_request list_sub_gpath_op Hsel).
Defined.

Lemma dispatch_reads_only_its_parameters_witness :
  selected Sim.timestamps_request = Some timestamps_op /\
  URL_Path Fixtures.timestamps_noisy = URL_Path Sim.timestamps_request /\
  dispatch Fixtures.timestamps_noisy = dispatch Sim.timestamps_request.
Proof.
  assert (Hsel : selected Sim.timestamps_request = Some timestamps_op)
    by (vm_compute; reflexivity).
  split; [exact Hsel |]. split; [reflexivity |].
  apply (dispatch_reads_only_its_parameters Sim.timestamps_request
           Fixtures.timestamps_noisy timestamps_op Hsel eq_refl).
  - intros flag Hin. cbn in Hin.
    repeat (destruct Hin as [<- | Hin]; [vm_compute; reflexivity |]). destruct Hin.
  - intros name t Hin. cbn in Hin.
    repeat (destruct Hin as [Hp | Hin];
            [ first [ discriminate Hp
                    | injection Hp as <- <-; vm_compute; reflexivity ] | ]).
    destruct Hin.
Defined.

Lemma memcache_flag_decides_witness :
  startup.main Fixtures.sql_Open Fixtures.select_true Fixtures.memcache_New
    startup.defaults
    = (startup.Serving ":8080" Sim.no_cache,
       [ startup.Open "user=api host=/var/run/postgresql dbname=mas sslmode=disable";
         startup.SelectTrue; startup.SetMaxIdleConns 8;
         startup.SetMaxOpenConns 64; startup.ListenAndServe ":8080" ]) /\
  (startup.mcURI startup.defaults = "" ->
     forallb is_query
       (trace_of (Sim.handler Sim.Get Sim.Set_ Sim.no_cache Sim.timestamps_request))
       = true /\
     mc (world_of (Sim.handler Sim.Get Sim.Set_ Sim.no_cache Sim.timestamps_request))
       = None) /\
  (startup.mcURI startup.defaults <> "" ->
     In (startup.New (startup.mcURI startup.defaults))
        [ startup.Open "user=api host=/var/run/postgresql dbname=mas sslmode=disable";
          startup.SelectTrue; startup.SetMaxIdleConns 8;
          startup.SetMaxOpenConns 64; startup.ListenAndServe ":8080" ] /\
     (exists rest,
        trace_of (Sim.handler Sim.Get Sim.Set_ Sim.no_cache Sim.timestamps_request)
          = CacheGet (fingerprint Sim.timestamps_request) :: rest) /\
     is_Some (mc (world_of (Sim.handler Sim.Get Sim.Set_ Sim.no_cache
                              Sim.timestamps_request)))).
Proof.
  assert (H : startup.main Fixtures.sql_Open Fixtures.select_true Fixtures.memcache_New
                startup.defaults
              = (startup.Serving ":8080" Sim.no_cache,
                 [ startup.Open
                     "user=api host=/var/run/postgresql dbname=mas sslmode=disable";
                   startup.SelectTrue; startup.SetMaxIdleConns 8;
                   startup.SetMaxOpenConns 64; startup.ListenAndServe ":8080" ]))
    by (vm_compute; reflexivity).
  split; [exact H |].
  exact (memcache_flag_decides Fixtures.sql_Open Fixtures.select_true
           Fixtures.memcache_New Sim.QueryRow Sim.Get Sim.Set_ Sim.isPrintTable
           startup.defaults _ _ _ Sim.timestamps_request H).
Defined.
